(** * Embedded-Comm: the host-side task scheduler

    A shallow embedding of [task_scheduler/task_scheduler.py] and
    [task_scheduler/task.py].

    The Python module keeps its state in module-level globals
    ([_SER_CH], [_task_holder], [_prev_task], [_start_time],
    [_task_queue]) and [Task] objects are shared by reference between the
    registry, the queue and the callers.  The embedding therefore threads
    one [World] through every function: the globals, an object store for
    [Task] instances and for message buffers, and the two external
    devices (the serial port and the wall clock).

    External collaborators are interfaces:
    - the protocol-buffer message class is the type class [Message];
    - callbacks are Python callables, named in the task object and
      interpreted by an environment [callbacks];
    - [time()] returns floats; the embedding reads exact rationals from a
      clock oracle, so rounding in [time() - _start_time] is abstracted;
    - the serial port is a buffer of pending bytes and a log of the
      buffers passed to [write]; bytes that arrive while a function runs
      are added by the environment between calls ([arrive]). *)

From Stdlib Require Import ZArith QArith Qabs List Bool Lia Lqa.
From Stdlib Require String.
Import String.StringSyntax.
From stdpp Require Import base option list functions gmap.
Import ListNotations.

Local Open Scope Z_scope.

(** ** Data model *)

(** Python [bytes]: a list of integers in 0..255. *)
Abbreviation bytes := (list Z).

(** Object identities: [Task] instances, message buffers, callables. *)
Abbreviation tref := nat.
Abbreviation mref := nat.
Abbreviation cbname := nat.

(** Exceptions raised by the modelled code. *)
Inductive exn : Type :=
| OverflowError   (* int.to_bytes out of range *)
| KeyError        (* task number already registered *)
| ValueError      (* rx task without callback *)
| TypeError       (* calling None, arithmetic on None *)
| IndexError      (* bin_msg[0] on an empty read *)
| AttributeError  (* _SER_CH used before init *)
| DecodeError     (* google.protobuf.message.DecodeError *)
| UserError (code : nat).  (* anything a callback raises *)

(** Result of [msg.ParseFromString(data)].  The buffer is mutated in place,
    so both results carry the buffer as the decoder left it. *)
Inductive parse_result (M : Type) : Type :=
| Parsed (m : M)
| Malformed (m : M).
Arguments Parsed {M} m.
Arguments Malformed {M} m.

(** The protobuf message interface used by the scheduler. *)
Class Message (M : Type) : Type := {
  Clear : M -> M;
  ParseFromString : M -> bytes -> parse_result M;
  SerializePartialToString : M -> bytes
}.

(** [serial.Serial]: pending input and the sequence of written buffers. *)
Record Serial : Type := mkSerial {
  in_buffer : bytes;
  written : list bytes
}.

(** Attributes of a [Task] instance (task.py, lines 21-24). *)
Record Task : Type := mkTask {
  msg : mref;
  is_rx : bool;
  callback : option cbname;
  id : bytes
}.

Section Scheduler.

Context {M : Type} `{Message M}.

(** Module globals of task_scheduler.py, the object stores and the
    devices. *)
Record World : Type := mkWorld {
  _SER_CH : option Serial;
  _task_holder : gmap Z tref;
  _prev_task : option tref;
  _start_time : option Q;
  _task_queue : list tref;
  tasks : tref -> Task;
  next_task : tref;
  msgs : mref -> M;
  clock : nat -> Q;
  clock_idx : nat
}.

Definition _CH_OPEN_TIME : Q := 2 # 10.
Definition _TASK_RESET_TIME : Q := 1.

(** Field updates. *)
Definition set_SER_CH (s : option Serial) (w : World) : World :=
  mkWorld s (_task_holder w) (_prev_task w) (_start_time w) (_task_queue w)
          (tasks w) (next_task w) (msgs w) (clock w) (clock_idx w).
Definition set_task_holder (h : gmap Z tref) (w : World) : World :=
  mkWorld (_SER_CH w) h (_prev_task w) (_start_time w) (_task_queue w)
          (tasks w) (next_task w) (msgs w) (clock w) (clock_idx w).
Definition set_prev_task (p : option tref) (w : World) : World :=
  mkWorld (_SER_CH w) (_task_holder w) p (_start_time w) (_task_queue w)
          (tasks w) (next_task w) (msgs w) (clock w) (clock_idx w).
Definition set_start_time (t : option Q) (w : World) : World :=
  mkWorld (_SER_CH w) (_task_holder w) (_prev_task w) t (_task_queue w)
          (tasks w) (next_task w) (msgs w) (clock w) (clock_idx w).
Definition set_task_queue (q : list tref) (w : World) : World :=
  mkWorld (_SER_CH w) (_task_holder w) (_prev_task w) (_start_time w) q
          (tasks w) (next_task w) (msgs w) (clock w) (clock_idx w).
Definition set_tasks (ts : tref -> Task) (nx : tref) (w : World) : World :=
  mkWorld (_SER_CH w) (_task_holder w) (_prev_task w) (_start_time w)
          (_task_queue w) ts nx (msgs w) (clock w) (clock_idx w).
Definition set_msgs (ms : mref -> M) (w : World) : World :=
  mkWorld (_SER_CH w) (_task_holder w) (_prev_task w) (_start_time w)
          (_task_queue w) (tasks w) (next_task w) ms (clock w) (clock_idx w).
Definition set_clock_idx (k : nat) (w : World) : World :=
  mkWorld (_SER_CH w) (_task_holder w) (_prev_task w) (_start_time w)
          (_task_queue w) (tasks w) (next_task w) (msgs w) (clock w) k.

(** ** Effects: exceptions over the world, with a log of the callbacks the
    scheduler invoked *)

Inductive outcome (A : Type) : Type :=
| Return (a : A) (w : World)
| Raise (e : exn) (w : World).
Arguments Return {A} a w.
Arguments Raise {A} e w.

(** A scheduler computation returns the tasks whose callback it invoked, in
    order, next to its outcome. *)
Definition Sched (A : Type) : Type := World -> list tref * outcome A.

Definition ret {A} (a : A) : Sched A := fun w => ([], Return a w).
Definition raise {A} (e : exn) : Sched A := fun w => ([], Raise e w).
Definition bind {A B} (m : Sched A) (k : A -> Sched B) : Sched B :=
  fun w =>
    match m w with
    | (l, Return a w') => let (l', o) := k a w' in (l ++ l', o)
    | (l, Raise e w') => (l, Raise e w')
    end.
Definition get : Sched World := fun w => ([], Return w w).
Definition modify (f : World -> World) : Sched unit :=
  fun w => ([], Return tt (f w)).

Notation "x <- m ;; k" := (bind m (fun x => k))
  (at level 100, m at next level, right associativity).
Notation "m ;;; k" := (bind m (fun _ => k))
  (at level 100, right associativity).

(** Python callables stored in [task.callback]. *)
Variable callbacks : cbname -> World -> outcome unit.

(** ** Devices *)

(** [time()]: the next reading of the clock. *)
Definition time : Sched Q :=
  fun w => ([], Return (clock w (clock_idx w)) (set_clock_idx (S (clock_idx w)) w)).

Definition a_gt (a b : Q) : bool := negb (Qle_bool a b).
Definition a_lt (a b : Q) : bool := negb (Qle_bool b a).

(** [_SER_CH] as an object: [None] before [init]. *)
Definition ser_ch : Sched Serial :=
  fun w => match _SER_CH w with
           | Some s => ([], Return s w)
           | None => ([], Raise AttributeError w)
           end.

(** [_SER_CH.in_waiting] *)
Definition in_waiting : Sched nat :=
  s <- ser_ch ;; ret (length (in_buffer s)).

(** [_SER_CH.write(bin_msg)] *)
Definition ser_write (bin_msg : bytes) : Sched unit :=
  s <- ser_ch ;;
  modify (set_SER_CH (Some (mkSerial (in_buffer s) (written s ++ [bin_msg])))).

(** Bytes delivered by the device between two calls. *)
Definition arrive (bs : bytes) (w : World) : World :=
  match _SER_CH w with
  | Some s => set_SER_CH (Some (mkSerial (in_buffer s ++ bs) (written s))) w
  | None => w
  end.

(** ** task_scheduler.py: interface functions *)

(** [init], lines 29-35.  [port] is the object [serial.Serial(...)] returns;
    finding and opening the device is outside the model. *)
Definition init (port : Serial) : Sched unit :=
  modify (set_SER_CH (Some port)) ;;;
  t <- time ;;
  modify (set_start_time (Some t)).

(** [get_task], line 47: [_task_holder.get(task_id)] *)
Definition get_task (task_id : Z) (w : World) : option tref :=
  _task_holder w !! task_id.

(** [is_task_in_queue], line 53.  [Task] defines no [__eq__], so [in]
    compares object identities. *)
Definition is_task_in_queue (task : tref) (w : World) : bool :=
  bool_decide (task ∈ _task_queue w).

(** [is_task_registered], line 59: [task_id in _task_holder] *)
Definition is_task_registered (task_id : Z) (w : World) : bool :=
  bool_decide (is_Some (_task_holder w !! task_id)).

(** [register_task], line 71: [_task_holder[task_id] = task] *)
Definition register_task (task_id : Z) (task : tref) : Sched unit :=
  modify (fun w => set_task_holder (<[task_id := task]> (_task_holder w)) w).

(** [schedule_task], lines 86-87 *)
Definition schedule_task (task : tref) : Sched unit :=
  w <- get ;;
  if negb (is_task_in_queue task w)
  then modify (fun w => set_task_queue (_task_queue w ++ [task]) w)
  else ret tt.

(** ** Operations on the objects a task refers to *)

(** [task.msg.ParseFromString(msg_str)] *)
Definition msg_ParseFromString (task : tref) (msg_str : bytes) : Sched unit :=
  fun w =>
    let r := msg (tasks w task) in
    match ParseFromString (msgs w r) msg_str with
    | Parsed m => ([], Return tt (set_msgs (<[r := m]> (msgs w)) w))
    | Malformed m => ([], Raise DecodeError (set_msgs (<[r := m]> (msgs w)) w))
    end.

(** [task.msg.Clear()] *)
Definition msg_Clear (task : tref) : Sched unit :=
  modify (fun w =>
    let r := msg (tasks w task) in
    set_msgs (<[r := Clear (msgs w r)]> (msgs w)) w).

(** [task.callback()]: calling [None] is a [TypeError]. *)
Definition call_callback (task : tref) : Sched unit :=
  fun w =>
    match callback (tasks w task) with
    | Some c => ([task], callbacks c w)
    | None => ([], Raise TypeError w)
    end.

(** [_task_queue[0]] and [_task_queue.popleft()] *)
Definition queue_head : Sched tref :=
  fun w =>
    match _task_queue w with
    | task :: _ => ([], Return task w)
    | [] => ([], Raise IndexError w)
    end.

Definition popleft : Sched tref :=
  fun w =>
    match _task_queue w with
    | task :: q => ([], Return task (set_task_queue q w))
    | [] => ([], Raise IndexError w)
    end.

(** [b[0]] on a bytes object *)
Definition index0 (b : bytes) : Sched Z :=
  match b with
  | x :: _ => ret x
  | [] => raise IndexError
  end.

(** ** Serial channel methods *)

(** [_transmit_message], lines 169-172 *)
Definition _transmit_message (task : tref) : Sched unit :=
  w <- get ;;
  let bin_msg :=
    id (tasks w task) ++ SerializePartialToString (msgs w (msg (tasks w task))) in
  ser_write bin_msg.

(** The loop of [_extract_message], lines 160-161:
    [while _SER_CH.in_waiting and time() - start < _CH_OPEN_TIME:
         bin_msg += _SER_CH.read()].
    Each iteration takes one pending byte, so the recursion is on the
    pending bytes; [k] counts the clock readings.  The clock is read only
    when bytes are pending ([and] short-circuits).  Returns what was read,
    what stays pending and the next clock index. *)
Fixpoint read_loop (clk : nat -> Q) (start : Q) (pending bin_msg : bytes)
    (k : nat) : bytes * bytes * nat :=
  match pending with
  | [] => (bin_msg, [], k)
  | b :: pending' =>
      if a_lt (clk k - start) _CH_OPEN_TIME
      then read_loop clk start pending' (bin_msg ++ [b]) (S k)
      else (bin_msg, pending, S k)
  end.

(** [_extract_message], lines 154-166 *)
Definition _extract_message : Sched (Z * bytes) :=
  start <- time ;;
  s <- ser_ch ;;
  w <- get ;;
  let '(bin_msg, rest, k) :=
    read_loop (clock w) start (in_buffer s) [] (clock_idx w) in
  modify (fun w => set_clock_idx k (set_SER_CH (Some (mkSerial rest (written s))) w)) ;;;
  match bin_msg with
  | task_id :: proto_msg => ret (task_id, proto_msg)
  | [] => raise IndexError
  end.

(** [pass_completion_message], line 65 *)
Definition pass_completion_message (task : tref) : Sched unit :=
  _transmit_message task.

(** ** Rx task handling methods *)

(** [_route_data], lines 116-122 *)
Definition _route_data (task_id : Z) (msg_str : bytes) : Sched unit :=
  w <- get ;;
  match _task_holder w !! task_id with
  | Some task =>
      msg_ParseFromString task msg_str ;;;
      call_callback task ;;;
      msg_Clear task
  | None =>
      match _task_queue w with
      | [] => ret tt
      | head :: _ =>
          b <- index0 (id (tasks w head)) ;;
          if bool_decide (task_id = b)
          then popleft ;;; ret tt
          else ret tt
      end
  end.

(** [_handle_incoming_message], lines 102-103 *)
Definition _handle_incoming_message : Sched unit :=
  frame <- _extract_message ;;
  _route_data (fst frame) (snd frame).

(** ** Tx handling methods *)

(** [_start_time] as an operand of [-]: [None] is a [TypeError]. *)
Definition start_time : Sched Q :=
  fun w =>
    match _start_time w with
    | Some t => ([], Return t w)
    | None => ([], Raise TypeError w)
    end.

(** Lines 143-144: [if task.callback is not None: task.callback()] *)
Definition callback_if_set (task : tref) : Sched unit :=
  w <- get ;;
  match callback (tasks w task) with
  | Some _ => call_callback task
  | None => ret tt
  end.

(** [_handle_current_task], lines 138-149 *)
Definition _handle_current_task : Sched unit :=
  task <- queue_head ;;
  w <- get ;;
  let is_prev_task := bool_decide (_prev_task w = Some task) in
  now <- time ;;
  st <- start_time ;;
  let reset_task_timer := a_gt (now - st) _TASK_RESET_TIME in
  if (is_prev_task && reset_task_timer) || negb is_prev_task then
    callback_if_set task ;;;
    _transmit_message task ;;;
    msg_Clear task ;;;
    (if reset_task_timer
     then t <- time ;; modify (set_start_time (Some t))
     else ret tt) ;;;
    modify (set_prev_task (Some task))
  else ret tt.

(** [run], lines 77-80 *)
Definition run : Sched unit :=
  n <- in_waiting ;;
  (if negb (n =? 0)%nat then _handle_incoming_message else ret tt) ;;;
  w <- get ;;
  match _task_queue w with
  | [] => ret tt
  | _ :: _ => _handle_current_task
  end.

(** ** task.py *)

(** [task_id.to_bytes(1, "big")] *)
Definition to_bytes1 (n : Z) : Sched bytes :=
  if bool_decide (0 <= n < 256) then ret [n] else raise OverflowError.

(** [Task.__init__], lines 21-31.  The instance is allocated and its
    attributes are assigned before the checks; when a check raises, the
    instance stays in the store, unreachable.  Until line 24 runs, the
    missing [id] attribute is the empty bytes. *)
Definition Task_init (task_id : Z) (is_rx : bool) (msg_obj : mref)
    (callback : option cbname) : Sched tref :=
  w <- get ;;
  let self := next_task w in
  modify (set_tasks (<[self := mkTask msg_obj is_rx callback []]> (tasks w)) (S self)) ;;;
  i <- to_bytes1 task_id ;;
  modify (fun w => set_tasks (<[self := mkTask msg_obj is_rx callback i]> (tasks w))
                             (next_task w) w) ;;;
  w <- get ;;
  if is_task_registered task_id w then raise KeyError
  else if is_rx then
    match callback with
    | None => raise ValueError
    | Some _ => register_task task_id self ;;; ret self
    end
  else ret self.

(** [Task.alert_completion], [Task.schedule], [Task.was_not_handled],
    lines 40, 45, 50 *)
Definition alert_completion (self : tref) : Sched unit :=
  pass_completion_message self.
Definition schedule (self : tref) : Sched unit :=
  schedule_task self.
Definition was_not_handled (self : tref) (w : World) : bool :=
  is_task_in_queue self w.

(** ** Vocabulary of the properties *)

(** The world an outcome ends in. *)
Definition world_of {A} (o : outcome A) : World :=
  match o with
  | Return _ w => w
  | Raise _ w => w
  end.

(** Buffers written to the port so far; nothing before [init]. *)
Definition writes (w : World) : list bytes :=
  match _SER_CH w with
  | Some s => written s
  | None => []
  end.




(** The store after [Task.__init__] has allocated the instance and assigned
    its four attributes (lines 21-24). *)
Definition constructed (task_id : Z) (is_rx : bool) (msg_obj : mref)
    (callback : option cbname) (w : World) : World :=
  set_tasks
    (<[next_task w := mkTask msg_obj is_rx callback [task_id]]>
       (<[next_task w := mkTask msg_obj is_rx callback []]> (tasks w)))
    (S (next_task w)) w.

(** The world after [task.msg.ParseFromString] left [m] in the buffer, and
    after [task.msg.Clear()]. *)
Definition stored (task : tref) (m : M) (w : World) : World :=
  set_msgs (<[msg (tasks w task) := m]> (msgs w)) w.

Definition cleared (task : tref) (w : World) : World :=
  set_msgs (<[msg (tasks w task) := Clear (msgs w (msg (tasks w task)))]> (msgs w)) w.

(** The buffer [_transmit_message(task)] builds. *)
Definition frame_of (task : tref) (w : World) : bytes :=
  id (tasks w task) ++ SerializePartialToString (msgs w (msg (tasks w task))).

(** The world after [_SER_CH.write(bin_msg)] on the port [s]. *)
Definition sent (s : Serial) (bin_msg : bytes) (w : World) : World :=
  set_SER_CH (Some (mkSerial (in_buffer s) (written s ++ [bin_msg]))) w.

(** The second statement of [run], lines 79-80. *)
Definition outbound_handling : Sched unit :=
  w <- get ;;
  match _task_queue w with
  | [] => ret tt
  | _ :: _ => _handle_current_task
  end.

(** The comparison of line 140 at the next clock reading: has more than
    [_TASK_RESET_TIME] passed since [_start_time] was last set? *)
Definition timer_expired (w : World) : bool :=
  match _start_time w with
  | Some st => a_gt (clock w (clock_idx w) - st) _TASK_RESET_TIME
  | None => false
  end.

(** Lines 147-148: [if reset_task_timer: _start_time = time()] *)
Definition timer_reset (expired : bool) (w : World) : World :=
  if expired
  then set_start_time (Some (clock w (clock_idx w))) (set_clock_idx (S (clock_idx w)) w)
  else w.

(** A callable that only fills message buffers, as the refresh callback
    of a Tx task does. *)
Definition refreshes (c : cbname) : Prop :=
  forall w, exists ms, callbacks c w = Return tt (set_msgs ms w).

(** [task] is the only queued task, the port is open with no pending
    input, the timer was started, and the task's callback, if set, only
    refreshes buffers. *)
Definition queued_alone (task : tref) (w : World) : Prop :=
  (exists s, _SER_CH w = Some s /\ in_buffer s = []) /\
  _task_queue w = [task] /\
  is_Some (_start_time w) /\
  match callback (tasks w task) with
  | Some c => refreshes c
  | None => True
  end.

End Scheduler.




Arguments World M : clear implicits.
Arguments outcome M A : clear implicits.
Arguments Sched M A : clear implicits.
Arguments Return {M A} a w.
Arguments Raise {M A} e w.
Arguments mkWorld {M}.
Arguments world_of {M A} o.
Arguments writes {M} w.

Notation "x <- m ;; k" := (bind m (fun x => k))
  (at level 100, m at next level, right associativity).
Notation "m ;;; k" := (bind m (fun _ => k))
  (at level 100, right associativity).

(** ** The rest of the two modules, and their caller *)

(** What [list_ports.comports()] yields for a port: the attributes
    [_get_port] and [init] read. *)
Record ListPortInfo : Type := mkPort {
  device : String.string;
  description : String.string
}.

(** Python's [sub in s] on [str]: [sub] occurs in [s]. *)
Definition str_in (sub s : String.string) : bool :=
  match String.index 0 sub s with
  | Some _ => true
  | None => false
  end.

(** [sub] occurs in [s] at some position. *)
Definition occurs_in (sub s : String.string) : Prop :=
  exists m, String.substring m (String.length sub) s = sub.

(** [_get_port], lines 179-181; a loop that ends without [return] yields
    [None]. *)
Fixpoint _get_port (port_search : String.string) (comports : list ListPortInfo)
    : option ListPortInfo :=
  match comports with
  | [] => None
  | port :: comports' =>
      if str_in port_search (description port) then Some port
      else _get_port port_search comports'
  end.

Section Collaborators.

Context {M : Type} `{Message M}.
Variable callbacks : cbname -> World M -> outcome M unit.

(** [init] as called, lines 32-35, with the enumeration [comports] of the
    machine and [serial_at], the port object [serial.Serial] opens for a
    device name.  [None.device] is an [AttributeError], raised before
    either global is assigned. *)
Definition init_search (comports : list ListPortInfo)
    (serial_at : String.string -> Serial) (port_search : String.string)
    : Sched M unit :=
  match _get_port port_search comports with
  | Some port => init (serial_at (device port))
  | None => raise AttributeError
  end.

(** [self.callback = ...]: assignment to the attribute of an instance. *)
Definition set_callback (self : tref) (cb : option cbname) : Sched M unit :=
  modify (fun w =>
    set_tasks
      (<[self := mkTask (msg (tasks w self)) (is_rx (tasks w self)) cb
                        (id (tasks w self))]> (tasks w))
      (next_task w) w).

(** [TopicTask.__init__], ros_emb_interface.py lines 28-38.  The base
    initialiser receives [send_data] in the place of [is_rx] and no
    callback.  The ROS publisher and subscriber are objects outside the
    world, [ros_info] is taken to hold both keys, and [rx_callback] names
    the bound method [self.rx_callback]. *)
Definition TopicTask_init (task_id : Z) (send_data : bool) (msg_obj : mref)
    (rx_callback : cbname) : Sched M tref :=
  self <- Task_init task_id send_data msg_obj None ;;
  if send_data then ret self
  else set_callback self (Some rx_callback) ;;; ret self.

(** The loop of [run] in ros_emb_interface.py, lines 80-81:
    [while not rospy.is_shutdown(): task_scheduler.run()], for the [n]
    iterations before shutdown. *)
Fixpoint run_loop (n : nat) : Sched M unit :=
  match n with
  | O => ret tt
  | S n' => run callbacks ;;; run_loop n'
  end.

(** The module state at import time (task_scheduler.py lines 16-23): no
    port, no start time, nothing registered, queued or handled. *)
Definition import_state (buffers : mref -> M) (clk : nat -> Q) : World M :=
  mkWorld None ∅ None None [] (fun _ => mkTask 0 false None []) 0 buffers clk 0.

(** A program that only builds tasks and schedules them. *)
Inductive setup_call : Type :=
| Construct (task_id : Z) (is_rx : bool) (msg_obj : mref) (cb : option cbname)
| Schedule (task : tref).

Definition setup_step (c : setup_call) (w : World M) : World M :=
  match c with
  | Construct task_id is_rx msg_obj cb =>
      world_of (snd (Task_init task_id is_rx msg_obj cb w))
  | Schedule task => world_of (snd (schedule task w))
  end.

Definition setup (cs : list setup_call) (w : World M) : World M :=
  fold_left (fun w c => setup_step c w) cs w.

(** Every registered number is a byte and maps to an allocated Rx
    instance that has a callback and carries that number as its id. *)
Definition registry_ok (w : World M) : Prop :=
  forall task_id task, _task_holder w !! task_id = Some task ->
    (task < next_task w)%nat /\
    0 <= task_id < 256 /\
    is_rx (tasks w task) = true /\
    is_Some (callback (tasks w task)) /\
    id (tasks w task) = [task_id].

(** One world differs from another at most in the task store and the
    registry. *)
Definition same_devices (w w' : World M) : Prop :=
  _SER_CH w' = _SER_CH w /\ _prev_task w' = _prev_task w /\
  _start_time w' = _start_time w /\ _task_queue w' = _task_queue w /\
  msgs w' = msgs w /\ clock w' = clock w /\ clock_idx w' = clock_idx w.

End Collaborators.

Arguments import_state {M} buffers clk.

(** ** A concrete program for the examples

    [Reading] stands for a generated message class with one optional
    one-byte field: the wire form is empty when the field is unset and the
    byte otherwise; anything longer does not decode, and the decoder has
    stored the field by the time it meets the trailing bytes. *)
Module Demo.

Definition Reading : Type := option Z.

#[export] Instance Reading_Message : Message Reading := {|
  Clear := fun _ => None;
  ParseFromString := fun _ data =>
    match data with
    | [] => Parsed None
    | [v] => Parsed (Some v)
    | v :: _ :: _ => Malformed (Some v)
    end;
  SerializePartialToString := fun m =>
    match m with
    | Some v => [v]
    | None => []
    end
|}.

(** Callables: 0 does nothing; 1 fills buffer 0 with the value 42 (a Tx
    refresh); 2 acknowledges completion of task 0, as
    [TopicTask.rx_callback] does; any other raises. *)
Definition callbacks (c : cbname) (w : World Reading) : outcome Reading unit :=
  match c with
  | O => Return tt w
  | 1%nat => Return tt (set_msgs (<[0%nat := Some 42]> (msgs w)) w)
  | 2%nat => snd (alert_completion 0%nat w)
  | _ => Raise (UserError c) w
  end.

(** The module state at import time: no port, nothing registered or
    queued.  The clock reads [t0], then advances by [dt] per reading. *)
Definition fresh (t0 dt : Q) : World Reading :=
  mkWorld None ∅ None None [] (fun _ => mkTask 0 false None []) 0
          (fun _ => None) (fun k => (t0 + inject_Z (Z.of_nat k) * dt)%Q) 0.

Definition port (pending : bytes) : Serial := mkSerial pending [].

(** Run a computation for its final world. *)
Definition exec {A} (m : Sched Reading A) (w : World Reading) : World Reading :=
  world_of (snd (m w)).

(** An Rx task numbered 5 with callable [c] (instance 0, buffer 0), and a
    port with [pending] bytes. *)
Definition rx_world (c : cbname) (pending : bytes) : World Reading :=
  exec (init (port pending))
    (exec (Task_init 5 true 0%nat (Some c)) (fresh 0 (1 # 100))).

(** The Rx task 5 and a queued Tx task numbered 7 (instance 1, buffer 1,
    no callback). *)
Definition rx_and_tx_world (pending : bytes) : World Reading :=
  exec (init (port pending))
    (exec (schedule_task 1%nat)
       (exec (Task_init 7 false 1%nat None)
          (exec (Task_init 5 true 0%nat (Some 0%nat)) (fresh 0 (1 # 100))))).

(** Two queued Tx tasks, numbered 7 and 8 (instances 0 and 1). *)
Definition two_tx_world : World Reading :=
  exec (init (port []))
    (exec (schedule_task 1%nat)
       (exec (Task_init 8 false 1%nat None)
          (exec (schedule_task 0%nat)
             (exec (Task_init 7 false 0%nat None) (fresh 0 (1 # 100)))))).

(** A queued Tx task numbered 5 (instance 0) and, constructed after it, an
    Rx task with the same number (instance 1). *)
Definition shadow_world : World Reading :=
  exec (init (port []))
    (exec (Task_init 5 true 1%nat (Some 0%nat))
       (exec (schedule_task 0%nat)
          (exec (Task_init 5 false 0%nat None) (fresh 0 (1 # 100))))).

(** One queued Tx task numbered 7 whose callback refreshes its buffer; the
    clock advances by 0.4 per reading. *)
Definition tx_world : World Reading :=
  exec (schedule_task 0%nat)
    (exec (init (port []))
       (exec (Task_init 7 false 0%nat (Some 1%nat)) (fresh 0 (4 # 10)))).


(** A queued Tx task numbered 7 whose callback raises. *)
Definition tx_raising_world : World Reading :=
  exec (schedule_task 0%nat)
    (exec (init (port []))
       (exec (Task_init 7 false 0%nat (Some 3%nat)) (fresh 0 (4 # 10)))).

(** The two queued Tx tasks 7 and 8, with the frame 7 pending. *)
Definition two_tx_acknowledged : World Reading :=
  exec (init (port [7]))
    (exec (schedule_task 1%nat)
       (exec (Task_init 8 false 1%nat None)
          (exec (schedule_task 0%nat)
             (exec (Task_init 7 false 0%nat None) (fresh 0 (1 # 100)))))).

(** A queued Tx task numbered 7 without callback whose buffer holds 9;
    the clock advances by 0.6 per reading. *)
Definition tx_loaded_world : World Reading :=
  exec (modify (fun w => set_msgs (<[0%nat := Some 9]> (msgs w)) w))
    (exec (schedule_task 0%nat)
       (exec (init (port []))
          (exec (Task_init 7 false 0%nat None) (fresh 0 (6 # 10))))).

(** The ports of a machine with two serial devices. *)
Local Open Scope string_scope.

Definition comports : list ListPortInfo :=
  [mkPort "/dev/ttyS0" "n/a"; mkPort "/dev/ttyACM0" "Arduino Uno";
   mkPort "/dev/ttyACM1" "Arduino Mega"].

Definition Arduino : String.string := "Arduino".

Definition Teensy : String.string := "Teensy".

Local Close Scope string_scope.

Definition serial_at (dev : String.string) : Serial := port [].

End Demo.

(** * Properties *)

Section Properties.

Set Default Proof Using "Type".

Context {M : Type} `{Message M}.
Variable callbacks : cbname -> World M -> outcome M unit.

Implicit Types (w : World M) (task head : tref) (task_id : Z)
  (msg_str payload : bytes).

(** ** The monad *)

Lemma bind_Return {A B} (m : Sched M A) (k : A -> Sched M B) w l a w' :
  m w = (l, Return a w') ->
  bind m k w = (l ++ fst (k a w'), snd (k a w')).
Proof. unfold bind. intros ->. now destruct (k a w'). Qed.

Lemma bind_Raise {A B} (m : Sched M A) (k : A -> Sched M B) w l e w' :
  m w = (l, Raise e w') ->
  bind m k w = (l, Raise e w').
Proof. unfold bind. now intros ->. Qed.

Lemma bind_ret_l {A B} (a : A) (k : A -> Sched M B) w :
  bind (ret a) k w = k a w.
Proof. unfold bind, ret. now destruct (k a w). Qed.

Lemma bind_assoc {A B C} (m : Sched M A) (f : A -> Sched M B)
    (g : B -> Sched M C) w :
  bind (bind m f) g w = bind m (fun x => bind (f x) g) w.
Proof.
  unfold bind. destruct (m w) as [l [a w'|e w']]; [|reflexivity].
  destruct (f a w') as [l1 [b w''|e w'']]; [|reflexivity].
  destruct (g b w''). now rewrite app_assoc.
Qed.

(** ** The task queue *)

Lemma schedule_task_queue task w :
  _task_queue (world_of (snd (schedule_task task w))) =
  if bool_decide (task ∈ _task_queue w) then _task_queue w
  else _task_queue w ++ [task].
Proof.
  unfold schedule_task, bind, get, is_task_in_queue; cbn.
  now destruct (bool_decide (task ∈ _task_queue w)).
Qed.


Lemma schedule_task_absent task w :
  task ∉ _task_queue w ->
  schedule_task task w = ([], Return tt (set_task_queue (_task_queue w ++ [task]) w)).
Proof.
  intros Hin. unfold schedule_task, bind, get, is_task_in_queue; cbn.
  now rewrite bool_decide_eq_false_2.
Qed.




(** ** Task construction *)

Lemma to_bytes1_byte task_id w :
  0 <= task_id < 256 -> to_bytes1 task_id w = ([], Return [task_id] w).
Proof. intros Hb. unfold to_bytes1. now rewrite bool_decide_eq_true_2. Qed.

Lemma is_task_registered_constructed task_id i r m c w :
  is_task_registered task_id (constructed i r m c w) = is_task_registered task_id w.
Proof. reflexivity. Qed.

(** A registered number is refused, whatever the direction of the new
    task, and the registry is left as it was. *)
Lemma Task_init_registered task_id is_rx msg_obj cb w task :
  0 <= task_id < 256 ->
  _task_holder w !! task_id = Some task ->
  Task_init task_id is_rx msg_obj cb w =
    ([], Raise KeyError (constructed task_id is_rx msg_obj cb w)).
Proof.
  intros Hb Hreg. unfold Task_init, bind, get, modify; cbn.
  rewrite to_bytes1_byte by assumption; cbn.
  unfold is_task_registered; cbn. rewrite Hreg.
  rewrite bool_decide_eq_true_2 by eauto. reflexivity.
Qed.

Lemma Task_init_tx task_id msg_obj cb w :
  0 <= task_id < 256 ->
  _task_holder w !! task_id = None ->
  Task_init task_id false msg_obj cb w =
    ([], Return (next_task w) (constructed task_id false msg_obj cb w)).
Proof.
  intros Hb Hreg. unfold Task_init, bind, get, modify; cbn.
  rewrite to_bytes1_byte by assumption; cbn.
  unfold is_task_registered; cbn. rewrite Hreg.
  rewrite bool_decide_eq_false_2 by (intros [? ?]; discriminate). reflexivity.
Qed.

Lemma Task_init_rx task_id msg_obj c w :
  0 <= task_id < 256 ->
  _task_holder w !! task_id = None ->
  Task_init task_id true msg_obj (Some c) w =
    ([], Return (next_task w)
           (set_task_holder (<[task_id := next_task w]> (_task_holder w))
              (constructed task_id true msg_obj (Some c) w))).
Proof.
  intros Hb Hreg. unfold Task_init, bind, get, modify; cbn.
  rewrite to_bytes1_byte by assumption; cbn.
  unfold is_task_registered; cbn. rewrite Hreg.
  rewrite bool_decide_eq_false_2 by (intros [? ?]; discriminate). reflexivity.
Qed.

(** C6: once a number is registered, constructing another Rx task with it
    raises [KeyError]; the registry is unchanged, so the number still maps
    to the first task. *)
Theorem second_rx_registration task_id msg1 msg2 c1 cb2 w
    (Hbyte : 0 <= task_id < 256)
    (Hfree : _task_holder w !! task_id = None) :
  exists first w1 w2,
    Task_init task_id true msg1 (Some c1) w = ([], Return first w1) /\
    _task_holder w1 !! task_id = Some first /\
    Task_init task_id true msg2 cb2 w1 = ([], Raise KeyError w2) /\
    _task_holder w2 = _task_holder w1 /\
    _task_holder w2 !! task_id = Some first /\
    tasks w2 first = tasks w1 first.
Proof.
  eexists _, _, _. split; [now apply Task_init_rx|].
  assert (Hreg : _task_holder
            (set_task_holder (<[task_id := next_task w]> (_task_holder w))
               (constructed task_id true msg1 (Some c1) w)) !! task_id
          = Some (next_task w)) by (cbn; apply lookup_insert_eq).
  split; [exact Hreg|].
  split; [eapply Task_init_registered; [exact Hbyte|exact Hreg]|].
  split; [reflexivity|]. split; [exact Hreg|].
  cbn. rewrite !fn_lookup_insert_ne by lia. reflexivity.
Qed.

(** C7: an Rx task without callback raises [ValueError] before
    [register_task] is reached; the registry is unchanged and has no
    entry for the number.  The number is one that can end without an entry:
    a byte that is not registered yet. *)
Theorem rx_without_callback task_id msg_obj w
    (Hbyte : 0 <= task_id < 256)
    (Hfree : _task_holder w !! task_id = None) :
  exists w',
    Task_init task_id true msg_obj None w = ([], Raise ValueError w') /\
    _task_holder w' = _task_holder w /\
    _task_holder w' !! task_id = None.
Proof.
  exists (constructed task_id true msg_obj None w).
  split; [|split; [reflexivity|exact Hfree]].
  unfold Task_init, bind, get, modify; cbn.
  rewrite to_bytes1_byte by assumption; cbn.
  unfold is_task_registered; cbn. rewrite Hfree.
  rewrite bool_decide_eq_false_2 by (intros [? ?]; discriminate). reflexivity.
Qed.

(** C10: the registry check of [Task.__init__] does not look at the
    direction.  A Tx task whose number is registered raises [KeyError];
    Tx tasks are never registered, so two of them with one number are both
    constructed, as two distinct instances. *)
Theorem tx_duplicate_check task_id msg1 msg2 cb1 cb2 w
    (Hbyte : 0 <= task_id < 256) :
  (forall task, _task_holder w !! task_id = Some task ->
     exists w', Task_init task_id false msg1 cb1 w = ([], Raise KeyError w') /\
                _task_holder w' = _task_holder w) /\
  (_task_holder w !! task_id = None ->
     exists t1 w1 t2 w2,
       Task_init task_id false msg1 cb1 w = ([], Return t1 w1) /\
       Task_init task_id false msg2 cb2 w1 = ([], Return t2 w2) /\
       t1 <> t2 /\
       id (tasks w2 t1) = [task_id] /\ id (tasks w2 t2) = [task_id] /\
       _task_holder w2 = _task_holder w).
Proof.
  split.
  - intros task Hreg. eexists.
    split; [eapply Task_init_registered; [exact Hbyte|exact Hreg]|reflexivity].
  - intros Hfree. eexists _, _, _, _.
    split; [now apply Task_init_tx|]. split; [now apply Task_init_tx|].
    cbn. split; [lia|].
    split; [|split; [|reflexivity]].
    + rewrite !fn_lookup_insert_ne by lia. now rewrite fn_lookup_insert.
    + now rewrite fn_lookup_insert.
Qed.

(** ** Inbound routing *)

Lemma route_data_rx task_id msg_str w task m c w2 :
  _task_holder w !! task_id = Some task ->
  ParseFromString (msgs w (msg (tasks w task))) msg_str = Parsed m ->
  callback (tasks w task) = Some c ->
  callbacks c (stored task m w) = Return tt w2 ->
  _route_data callbacks task_id msg_str w = ([task], Return tt (cleared task w2)).
Proof.
  intros Hreg Hparse Hcb Hrun.
  unfold _route_data, bind, get; cbn. rewrite Hreg.
  unfold msg_ParseFromString. rewrite Hparse.
  unfold call_callback; cbn. rewrite Hcb.
  fold (stored task m w). rewrite Hrun. reflexivity.
Qed.

Lemma route_data_malformed task_id msg_str w task m :
  _task_holder w !! task_id = Some task ->
  ParseFromString (msgs w (msg (tasks w task))) msg_str = Malformed m ->
  _route_data callbacks task_id msg_str w = ([], Raise DecodeError (stored task m w)).
Proof.
  intros Hreg Hparse.
  unfold _route_data, bind, get; cbn. rewrite Hreg.
  unfold msg_ParseFromString. rewrite Hparse. reflexivity.
Qed.

(** A frame was extracted only if the port had pending bytes. *)
Lemma extract_message_pending w l frame w' :
  _extract_message w = (l, Return frame w') ->
  exists s, _SER_CH w = Some s /\ in_buffer s <> [].
Proof.
  unfold _extract_message, bind, time, ser_ch, get, modify; cbn.
  destruct (_SER_CH w) as [s|]; [|discriminate].
  intros Hx. exists s. split; [reflexivity|].
  intros Hnil. rewrite Hnil in Hx. cbn in Hx. discriminate.
Qed.

Lemma run_inbound w frame w1 :
  _extract_message w = ([], Return frame w1) ->
  run callbacks w =
    bind (_route_data callbacks (fst frame) (snd frame))
         (fun _ => outbound_handling callbacks) w1.
Proof.
  intros Hx. destruct (extract_message_pending _ _ _ _ Hx) as (s & Hs & Hne).
  assert (Hn : in_waiting w = ([], Return (length (in_buffer s)) w)).
  { unfold in_waiting, bind, ser_ch. now rewrite Hs. }
  unfold run. rewrite (bind_Return _ _ _ _ _ _ Hn).
  destruct (in_buffer s) as [|b bs]; [congruence|].
  cbn [length Nat.eqb negb].
  unfold _handle_incoming_message. rewrite bind_assoc.
  rewrite (bind_Return _ _ _ _ _ _ Hx).
  now destruct (bind _ _ w1).
Qed.

Lemma handle_incoming_message_route w0 frame w :
  _extract_message w0 = ([], Return frame w) ->
  _handle_incoming_message callbacks w0 =
    _route_data callbacks (fst frame) (snd frame) w.
Proof.
  intros Hx. unfold _handle_incoming_message.
  rewrite (bind_Return _ _ _ _ _ _ Hx). now destruct (_route_data _ _ _ w).
Qed.

(** [alert_completion] writes the task's frame to the port at once; the
    queue is not involved. *)
Lemma alert_completion_writes task w s :
  _SER_CH w = Some s ->
  alert_completion task w = ([], Return tt (sent s (frame_of task w) w)).
Proof.
  intros Hs.
  unfold alert_completion, pass_completion_message, _transmit_message.
  unfold ser_write, bind, get, ser_ch, modify. now rewrite Hs.
Qed.

(** C1, as the code has it: when the frame read in a tick starts with the
    number of a registered task, the payload is parsed into the task's
    buffer, the callback is called once on that world, and the buffer is
    cleared.  Inbound handling itself writes nothing: the port and the
    queue are as the callback left them.  A completion frame is what
    [alert_completion] writes when the callback calls it: the id followed
    by the buffer's contents at that moment, straight to the port. *)
Theorem rx_frame_dispatch w0 w task_id payload task m c w2
    (Hframe : _extract_message w0 = ([], Return (task_id, payload) w))
    (Hreg : _task_holder w !! task_id = Some task)
    (Hparse : ParseFromString (msgs w (msg (tasks w task))) payload = Parsed m)
    (Hcb : callback (tasks w task) = Some c)
    (Hrun : callbacks c (stored task m w) = Return tt w2) :
  _handle_incoming_message callbacks w0 = ([task], Return tt (cleared task w2)) /\
  msgs (stored task m w) (msg (tasks w task)) = m /\
  msgs (cleared task w2) (msg (tasks w2 task)) = Clear (msgs w2 (msg (tasks w2 task))) /\
  _SER_CH (cleared task w2) = _SER_CH w2 /\
  _task_queue (cleared task w2) = _task_queue w2 /\
  run callbacks w0 =
    (task :: fst (outbound_handling callbacks (cleared task w2)),
     snd (outbound_handling callbacks (cleared task w2))) /\
  (forall t w' s, _SER_CH w' = Some s ->
     alert_completion t w' = ([], Return tt (sent s (frame_of t w') w')) /\
     writes (sent s (frame_of t w') w') = writes w' ++ [frame_of t w'] /\
     _task_queue (sent s (frame_of t w') w') = _task_queue w').
Proof.
  pose proof (route_data_rx _ _ _ _ _ _ _ Hreg Hparse Hcb Hrun) as Hroute.
  split; [|split; [|split; [|split; [|split; [|split]]]]].
  - rewrite (handle_incoming_message_route _ _ _ Hframe). exact Hroute.
  - unfold stored; cbn. apply fn_lookup_insert.
  - unfold cleared; cbn. apply fn_lookup_insert.
  - reflexivity.
  - reflexivity.
  - rewrite (run_inbound _ _ _ Hframe). cbn [fst snd].
    rewrite (bind_Return _ _ _ _ _ _ Hroute). reflexivity.
  - intros t w' s Hs. split; [now apply alert_completion_writes|].
    split; [|reflexivity]. unfold writes, sent; cbn. now rewrite Hs.
Qed.

(** C2, as the code has it: [_route_data] has no handler around
    [ParseFromString], so a payload that does not decode raises
    [DecodeError] out of the tick.  The callback is not called, outbound
    handling is not reached, and [Clear] is not reached either: the buffer
    holds what the decoder left in it.  Queue and port are untouched. *)
Theorem malformed_payload_raises w0 w task_id payload task m
    (Hframe : _extract_message w0 = ([], Return (task_id, payload) w))
    (Hreg : _task_holder w !! task_id = Some task)
    (Hparse : ParseFromString (msgs w (msg (tasks w task))) payload = Malformed m) :
  _handle_incoming_message callbacks w0 = ([], Raise DecodeError (stored task m w)) /\
  run callbacks w0 = ([], Raise DecodeError (stored task m w)) /\
  msgs (stored task m w) (msg (tasks w task)) = m /\
  _task_queue (stored task m w) = _task_queue w /\
  _SER_CH (stored task m w) = _SER_CH w.
Proof.
  pose proof (route_data_malformed _ _ _ _ _ Hreg Hparse) as Hroute.
  split; [|split; [|split; [|split]]].
  - rewrite (handle_incoming_message_route _ _ _ Hframe). exact Hroute.
  - rewrite (run_inbound _ _ _ Hframe). cbn [fst snd].
    now rewrite (bind_Raise _ _ _ _ _ _ Hroute).
  - unfold stored; cbn. apply fn_lookup_insert.
  - reflexivity.
  - reflexivity.
Qed.

Lemma index0_lookup (b : bytes) x w :
  b !! 0%nat = Some x -> index0 b w = ([], Return x w).
Proof. destruct b as [|y b]; cbn; [discriminate|]. now intros [= ->]. Qed.

(** C4: a frame whose number is not registered and equals the first byte
    of the queue head's id removes the head: the queue is its former tail,
    one element shorter, and nothing else changes. *)
Theorem device_acknowledgement task_id msg_str w head rest
    (Hreg : _task_holder w !! task_id = None)
    (Hq : _task_queue w = head :: rest)
    (Hid : id (tasks w head) !! 0%nat = Some task_id) :
  _route_data callbacks task_id msg_str w = ([], Return tt (set_task_queue rest w)) /\
  _task_queue (set_task_queue rest w) = rest /\
  S (length (_task_queue (set_task_queue rest w))) = length (_task_queue w).
Proof.
  split; [|split; [reflexivity|now rewrite Hq]].
  unfold _route_data, bind at 1, get. rewrite Hreg, Hq.
  rewrite (bind_Return _ _ _ _ _ _ (index0_lookup _ _ _ Hid)).
  rewrite bool_decide_eq_true_2 by reflexivity.
  unfold bind, popleft, ret. now rewrite Hq.
Qed.

(** C8: a frame whose number is not registered and is not the number of
    the queue head (or the queue is empty) changes nothing: no callback,
    no exception, the same world. *)
Theorem unroutable_frame task_id msg_str w
    (Hreg : _task_holder w !! task_id = None)
    (Hhead : forall head, _task_queue w !! 0%nat = Some head ->
       exists b, id (tasks w head) !! 0%nat = Some b /\ b <> task_id) :
  _route_data callbacks task_id msg_str w = ([], Return tt w).
Proof.
  unfold _route_data, bind at 1, get. rewrite Hreg.
  destruct (_task_queue w) as [|head rest]; [reflexivity|].
  destruct (Hhead head eq_refl) as (b & Hb & Hne).
  rewrite (bind_Return _ _ _ _ _ _ (index0_lookup _ _ _ Hb)).
  rewrite bool_decide_eq_false_2 by congruence. reflexivity.
Qed.

(** C9: the registry is consulted first.  A frame whose number is both
    registered and the number of the queue head goes to the registered
    task; [popleft] is not reached, so the head stays when the callback
    leaves the queue alone. *)
Theorem rx_registration_shadows_acknowledgement
    task_id msg_str w task head rest m c w2
    (Hreg : _task_holder w !! task_id = Some task)
    (Hq : _task_queue w = head :: rest)
    (Hid : id (tasks w head) !! 0%nat = Some task_id)
    (Hparse : ParseFromString (msgs w (msg (tasks w task))) msg_str = Parsed m)
    (Hcb : callback (tasks w task) = Some c)
    (Hrun : callbacks c (stored task m w) = Return tt w2)
    (Hkeep : _task_queue w2 = _task_queue (stored task m w)) :
  _route_data callbacks task_id msg_str w = ([task], Return tt (cleared task w2)) /\
  _task_queue (cleared task w2) = head :: rest.
Proof.
  split; [exact (route_data_rx _ _ _ _ _ _ _ Hreg Hparse Hcb Hrun)|].
  unfold cleared; cbn. now rewrite Hkeep.
Qed.

(** ** Outbound handling *)

Lemma callback_if_set_None task w :
  callback (tasks w task) = None ->
  callback_if_set callbacks task w = ([], Return tt w).
Proof. intros Hc. unfold callback_if_set, bind, get. now rewrite Hc. Qed.

Lemma callback_if_set_Some task w c :
  callback (tasks w task) = Some c ->
  callback_if_set callbacks task w = ([task], callbacks c w).
Proof.
  intros Hc. unfold callback_if_set, bind, get. rewrite Hc.
  unfold call_callback. rewrite Hc. now destruct (callbacks c w).
Qed.

Lemma handle_current_task_skip w task rest st :
  _task_queue w = task :: rest ->
  _start_time w = Some st ->
  _prev_task w = Some task ->
  a_gt (clock w (clock_idx w) - st) _TASK_RESET_TIME = false ->
  _handle_current_task callbacks w = ([], Return tt (set_clock_idx (S (clock_idx w)) w)).
Proof.
  intros Hq Hst Hprev Hexp.
  unfold _handle_current_task, bind, queue_head, get, time, start_time; cbn.
  rewrite Hq, Hst, Hexp, Hprev.
  rewrite bool_decide_eq_true_2 by reflexivity. reflexivity.
Qed.

Lemma transmit_message_writes task w s :
  _SER_CH w = Some s ->
  _transmit_message task w = ([], Return tt (sent s (frame_of task w) w)).
Proof.
  intros Hs. unfold _transmit_message, ser_write, bind, get, ser_ch, modify.
  now rewrite Hs.
Qed.

Lemma handle_current_task_act w task rest st l wc s :
  _task_queue w = task :: rest ->
  _start_time w = Some st ->
  _prev_task w <> Some task \/
    a_gt (clock w (clock_idx w) - st) _TASK_RESET_TIME = true ->
  callback_if_set callbacks task (set_clock_idx (S (clock_idx w)) w) = (l, Return tt wc) ->
  _SER_CH wc = Some s ->
  _handle_current_task callbacks w =
    (l, Return tt
          (set_prev_task (Some task)
             (timer_reset (a_gt (clock w (clock_idx w) - st) _TASK_RESET_TIME)
                (cleared task (sent s (frame_of task wc) wc))))).
Proof.
  intros Hq Hst Hcond Hcb Hs.
  unfold _handle_current_task, queue_head, get, time, start_time.
  unfold bind at 1 2 3 4. cbn -[callback_if_set]. rewrite Hq, Hst.
  set (expired := a_gt _ _) in *.
  assert (Hgo : bool_decide (_prev_task w = Some task) && expired
                || negb (bool_decide (_prev_task w = Some task)) = true).
  { destruct Hcond as [Hne| ->].
    - rewrite bool_decide_eq_false_2 by assumption. reflexivity.
    - now destruct (bool_decide _). }
  rewrite Hgo.
  rewrite (bind_Return _ _ _ _ _ _ Hcb).
  rewrite (bind_Return _ _ _ _ _ _ (transmit_message_writes _ _ _ Hs)).
  unfold bind, msg_Clear, modify, timer_reset, cleared.
  destruct expired; cbn; now rewrite app_nil_r.
Qed.

(** With no pending input, a tick is outbound handling alone. *)
Lemma run_idle_port w s :
  _SER_CH w = Some s -> in_buffer s = [] ->
  run callbacks w = outbound_handling callbacks w.
Proof.
  intros Hs Hin.
  assert (Hn : in_waiting w = ([], Return 0%nat w)).
  { unfold in_waiting, bind, ser_ch. now rewrite Hs, Hin. }
  unfold run. rewrite (bind_Return _ _ _ _ _ _ Hn). cbn [Nat.eqb negb].
  rewrite bind_ret_l. fold (outbound_handling callbacks).
  now destruct (outbound_handling callbacks w).
Qed.

Lemma outbound_handling_head w task rest :
  _task_queue w = task :: rest ->
  outbound_handling callbacks w = _handle_current_task callbacks w.
Proof.
  intros Hq. unfold outbound_handling, bind, get. rewrite Hq.
  now destruct (_handle_current_task callbacks w).
Qed.

(** A tick that transmits the only queued task. *)
Lemma run_transmits w task :
  queued_alone callbacks task w ->
  _prev_task w <> Some task \/ timer_expired w = true ->
  exists l w1 payload,
    run callbacks w = (l, Return tt w1) /\
    writes w1 = writes w ++ [id (tasks w task) ++ payload] /\
    queued_alone callbacks task w1 /\
    _prev_task w1 = Some task /\
    tasks w1 = tasks w.
Proof.
  intros ((s & Hs & Hin) & Hq & (st & Hst) & Hquiet) Hcond.
  unfold timer_expired in Hcond. rewrite Hst in Hcond.
  set (w' := set_clock_idx (S (clock_idx w)) w).
  assert (Hcb : exists l ms,
             callback_if_set callbacks task w' = (l, Return tt (set_msgs ms w'))).
  { destruct (callback (tasks w task)) as [c|] eqn:Hc.
    - destruct (Hquiet w') as (ms & Hms). exists [task], ms.
      rewrite (callback_if_set_Some task w' c Hc). now rewrite Hms.
    - exists [], (msgs w'). now rewrite (callback_if_set_None task w' Hc). }
  destruct Hcb as (l & ms & Hcb).
  assert (Hs' : _SER_CH (set_msgs ms w') = Some s) by exact Hs.
  pose proof (handle_current_task_act w task [] st l _ s Hq Hst Hcond Hcb Hs') as Hact.
  eexists l, _, _. split.
  { rewrite (run_idle_port w s Hs Hin), (outbound_handling_head w task [] Hq).
    exact Hact. }
  unfold timer_reset.
  destruct (a_gt (clock w (clock_idx w) - st) _TASK_RESET_TIME);
    (split; [unfold writes; cbn; rewrite Hs; reflexivity|]);
    (split; [|split; reflexivity]);
    (split; [exists (mkSerial (in_buffer s) (written s ++ [frame_of task (set_msgs ms w')]));
             split; [reflexivity|exact Hin]|]);
    (split; [exact Hq|]); (split; [cbn; eauto|exact Hquiet]).
Qed.

(** A tick that leaves the only queued task waiting. *)
Lemma run_waits w task :
  queued_alone callbacks task w ->
  _prev_task w = Some task -> timer_expired w = false ->
  exists w1,
    run callbacks w = ([], Return tt w1) /\
    writes w1 = writes w /\
    queued_alone callbacks task w1 /\
    _prev_task w1 = Some task /\
    tasks w1 = tasks w.
Proof.
  intros ((s & Hs & Hin) & Hq & (st & Hst) & Hquiet) Hprev Hexp.
  unfold timer_expired in Hexp. rewrite Hst in Hexp.
  exists (set_clock_idx (S (clock_idx w)) w). split.
  { rewrite (run_idle_port w s Hs Hin), (outbound_handling_head w task [] Hq).
    now apply (handle_current_task_skip w task [] st). }
  split; [reflexivity|]. split; [|split; [exact Hprev|reflexivity]].
  split; [exists s; split; [exact Hs|exact Hin]|].
  split; [exact Hq|]. split; [cbn; eauto|exact Hquiet].
Qed.

(** C3: outbound handling looks at the queue head only.  When the head is
    the task handled last and the timer has not expired, nothing happens
    but the clock reading.  When the head is another task, or the timer
    has expired, the callback runs if set, one frame (id and payload) is
    written, the buffer is cleared, the timer is restarted if it had
    expired, and the head is recorded.  Hence, for one queued Tx task and
    no input: the first tick writes one frame, a tick before the timer
    expires writes nothing, and a tick after it expired writes one more
    frame with the same id. *)
Theorem head_dispatch_and_retry :
  (forall w task rest st,
     _task_queue w = task :: rest -> _start_time w = Some st ->
     _prev_task w = Some task -> timer_expired w = false ->
     _handle_current_task callbacks w =
       ([], Return tt (set_clock_idx (S (clock_idx w)) w))) /\
  (forall w task rest st l wc s,
     _task_queue w = task :: rest -> _start_time w = Some st ->
     _prev_task w <> Some task \/ timer_expired w = true ->
     callback_if_set callbacks task (set_clock_idx (S (clock_idx w)) w)
       = (l, Return tt wc) ->
     _SER_CH wc = Some s ->
     exists w',
       _handle_current_task callbacks w = (l, Return tt w') /\
       l = match callback (tasks w task) with Some _ => [task] | None => [] end /\
       writes w' = writes wc ++ [frame_of task wc] /\
       msgs w' (msg (tasks wc task)) = Clear (msgs wc (msg (tasks wc task))) /\
       _start_time w' =
         (if timer_expired w then Some (clock wc (clock_idx wc)) else _start_time wc) /\
       _prev_task w' = Some task /\
       _task_queue w' = _task_queue wc) /\
  (forall w task,
     queued_alone callbacks task w ->
     (_prev_task w <> Some task ->
      exists l w1 payload,
        run callbacks w = (l, Return tt w1) /\
        writes w1 = writes w ++ [id (tasks w task) ++ payload] /\
        queued_alone callbacks task w1 /\ _prev_task w1 = Some task /\
        tasks w1 = tasks w) /\
     (_prev_task w = Some task -> timer_expired w = false ->
      exists w1,
        run callbacks w = ([], Return tt w1) /\
        writes w1 = writes w /\
        queued_alone callbacks task w1 /\ _prev_task w1 = Some task /\
        tasks w1 = tasks w) /\
     (_prev_task w = Some task -> timer_expired w = true ->
      exists l w1 payload,
        run callbacks w = (l, Return tt w1) /\
        writes w1 = writes w ++ [id (tasks w task) ++ payload] /\
        queued_alone callbacks task w1 /\ _prev_task w1 = Some task /\
        tasks w1 = tasks w)).
Proof.
  split; [|split].
  - intros w task rest st Hq Hst Hprev Hexp.
    unfold timer_expired in Hexp. rewrite Hst in Hexp.
    now apply (handle_current_task_skip w task rest st).
  - intros w task rest st l wc s Hq Hst Hcond Hcb Hs.
    unfold timer_expired in *. rewrite Hst in *.
    eexists. split; [exact (handle_current_task_act _ _ _ _ _ _ _ Hq Hst Hcond Hcb Hs)|].
    split.
    { set (w' := set_clock_idx _ w) in Hcb.
      change (tasks w task) with (tasks w' task).
      destruct (callback (tasks w' task)) as [c|] eqn:Hc.
      - rewrite (callback_if_set_Some task w' c Hc) in Hcb. congruence.
      - rewrite (callback_if_set_None task w' Hc) in Hcb. congruence. }
    unfold timer_reset.
    destruct (a_gt (clock w (clock_idx w) - st) _TASK_RESET_TIME); cbn;
      (split; [unfold writes; cbn; rewrite Hs; reflexivity|]);
      (split; [apply fn_lookup_insert|]); repeat split.
  - intros w task Halone. split; [|split].
    + intros Hprev. apply run_transmits; auto.
    + intros Hprev Hexp. now apply run_waits.
    + intros Hprev Hexp. apply run_transmits; auto.
Qed.

End Properties.

(** * The properties on the concrete program *)

Import Demo.


(** C6 on the import-time state: number 5 registered twice. *)
Lemma second_rx_registration_witness :
  exists first w1 w2,
    Task_init 5 true 0%nat (Some 0%nat) (fresh 0 1) = ([], Return first w1) /\
    _task_holder w1 !! 5 = Some first /\
    Task_init 5 true 1%nat None w1 = ([], Raise KeyError w2) /\
    _task_holder w2 = _task_holder w1 /\
    _task_holder w2 !! 5 = Some first /\
    tasks w2 first = tasks w1 first.
Proof.
  apply (second_rx_registration 5 0%nat 1%nat 0%nat None (fresh 0 1));
    [lia|reflexivity].
Defined.

(** C7 on the import-time state. *)
Lemma rx_without_callback_witness :
  exists w',
    Task_init 5 true 0%nat None (fresh 0 1) = ([], Raise ValueError w') /\
    _task_holder w' = _task_holder (fresh 0 1) /\
    _task_holder w' !! 5 = None.
Proof.
  apply (rx_without_callback 5 0%nat (fresh 0 1)); [lia|reflexivity].
Defined.

(** The order of the checks in [Task.__init__]: with Rx task 5
    registered, the duplicate check answers first, so another Rx task 5
    without callback raises [KeyError] and the entry for 5 stays. *)
Lemma rx_without_callback_registered_id :
  let w := rx_world 0 [] in
  Task_init 5 true 1%nat None w
    = ([], Raise KeyError (constructed 5 true 1%nat None w)) /\
  _task_holder (constructed 5 true 1%nat None w) !! 5 = Some 0%nat /\
  ~ (exists w', Task_init 5 true 1%nat None w = ([], Raise ValueError w') /\
                _task_holder w' !! 5 = None).
Proof.
  intros w.
  assert (Hrun : Task_init 5 true 1%nat None w
                 = ([], Raise KeyError (constructed 5 true 1%nat None w)))
    by reflexivity.
  split; [exact Hrun|]. split; [reflexivity|].
  intros (w' & Hval & _). rewrite Hrun in Hval. discriminate Hval.
Qed.

(** C10 on the concrete program: a Tx task numbered 5 is refused once Rx
    task 5 exists; two Tx tasks numbered 7 are both constructed. *)
Lemma tx_duplicate_check_witness :
  (exists w', Task_init 5 false 1%nat None (rx_world 0 []) = ([], Raise KeyError w') /\
              _task_holder w' = _task_holder (rx_world 0 [])) /\
  (exists t1 w1 t2 w2,
     Task_init 7 false 1%nat None (rx_world 0 []) = ([], Return t1 w1) /\
     Task_init 7 false 2%nat None w1 = ([], Return t2 w2) /\
     t1 <> t2 /\
     id (tasks w2 t1) = [7] /\ id (tasks w2 t2) = [7] /\
     _task_holder w2 = _task_holder (rx_world 0 [])).
Proof.
  split.
  - apply (proj1 (tx_duplicate_check 5 1%nat 2%nat None None (rx_world 0 [])
                    ltac:(lia)) 0%nat).
    reflexivity.
  - apply (proj2 (tx_duplicate_check 7 1%nat 2%nat None None (rx_world 0 [])
                    ltac:(lia))).
    reflexivity.
Defined.
(** C1 as stated fails when the callback does not acknowledge: the frame
    5,9 reaches Rx task 5, whose callback returns at once.  The tick
    returns, the callback ran once and the buffer is clear, and no frame
    was written. *)
Lemma rx_frame_without_completion_frame :
  let tick := run callbacks (rx_world 0 [5; 9]) in
  tick = ([0%nat], Return tt (world_of (snd tick))) /\
  msgs (world_of (snd tick)) 0%nat = None /\
  writes (world_of (snd tick)) = [] /\
  ~ (exists frame, frame ∈ writes (world_of (snd tick)) /\ frame !! 0%nat = Some 5).
Proof.
  intros tick.
  assert (Hw : writes (world_of (snd tick)) = []) by (vm_compute; reflexivity).
  split; [vm_compute; reflexivity|]. split; [vm_compute; reflexivity|].
  split; [exact Hw|].
  intros (frame & Hin & _). rewrite Hw in Hin. now apply not_elem_of_nil in Hin.
Qed.

(** C1 on the concrete program, with a callback that acknowledges: the
    frame written is the id and the parsed contents, the buffer is clear
    afterwards. *)
Lemma rx_frame_dispatch_witness :
  let w0 := rx_world 2 [5; 9] in
  let w := world_of (snd (_extract_message w0)) in
  let w2 := world_of (callbacks 2 (stored 0%nat (Some 9) w)) in
  _handle_incoming_message callbacks w0 = ([0%nat], Return tt (cleared 0%nat w2)) /\
  writes (cleared 0%nat w2) = [[5; 9]] /\
  msgs (cleared 0%nat w2) 0%nat = None.
Proof.
  intros w0 w w2. split; [|split; vm_compute; reflexivity].
  apply (rx_frame_dispatch callbacks w0 w 5 [9] 0%nat (Some 9) 2%nat w2);
    vm_compute; reflexivity.
Defined.

(** C2 as stated fails: with Tx task 7 queued, the frame 5,1,2 does not
    decode for Rx task 5.  The tick ends in [DecodeError]: nothing is
    written although a task is queued, and the buffer keeps the field the
    decoder had read, where [Clear] would leave [None].  With the payload
    that decodes, the same tick goes on to transmit the queued task. *)
Lemma malformed_payload_stops_tick :
  let tick := run callbacks (rx_and_tx_world [5; 1; 2]) in
  tick = ([], Raise DecodeError (world_of (snd tick))) /\
  _task_queue (world_of (snd tick)) = [1%nat] /\
  writes (world_of (snd tick)) = [] /\
  msgs (world_of (snd tick)) 0%nat = Some 1 /\
  Clear (msgs (world_of (snd tick)) 0%nat) = None /\
  writes (world_of (snd (run callbacks (rx_and_tx_world [5; 1])))) = [[7]] /\
  ~ (exists w', tick = ([], Return tt w')).
Proof.
  intros tick.
  assert (Hrun : tick = ([], Raise DecodeError (world_of (snd tick))))
    by (vm_compute; reflexivity).
  split; [exact Hrun|]. repeat (split; [vm_compute; reflexivity|]).
  intros (w' & Hret). rewrite Hrun in Hret. discriminate Hret.
Qed.

(** C2 on the concrete program. *)
Lemma malformed_payload_raises_witness :
  let w0 := rx_and_tx_world [5; 1; 2] in
  let w := world_of (snd (_extract_message w0)) in
  run callbacks w0 = ([], Raise DecodeError (stored 0%nat (Some 1) w)) /\
  _task_queue (stored 0%nat (Some 1) w) = [1%nat].
Proof.
  intros w0 w. split; [|vm_compute; reflexivity].
  apply (malformed_payload_raises callbacks w0 w 5 [1; 2] 0%nat (Some 1));
    vm_compute; reflexivity.
Defined.

(** C4 on the concrete program: the frame numbered 7 releases the head of
    the queue 0,1. *)
Lemma device_acknowledgement_witness :
  _route_data callbacks 7 [] two_tx_world
    = ([], Return tt (set_task_queue [1%nat] two_tx_world)) /\
  _task_queue (set_task_queue [1%nat] two_tx_world) = [1%nat] /\
  S (length (_task_queue (set_task_queue [1%nat] two_tx_world)))
    = length (_task_queue two_tx_world).
Proof.
  apply (device_acknowledgement callbacks 7 [] two_tx_world 0%nat [1%nat]);
    vm_compute; reflexivity.
Defined.

(** C8 on the concrete program: number 9 is neither registered nor the
    head's. *)
Lemma unroutable_frame_witness :
  _route_data callbacks 9 [3] two_tx_world = ([], Return tt two_tx_world).
Proof.
  apply (unroutable_frame callbacks 9 [3] two_tx_world);
    [vm_compute; reflexivity|].
  intros head Hhead. vm_compute in Hhead. injection Hhead as <-.
  exists 7. split; [vm_compute; reflexivity|lia].
Defined.

(** C9 on the concrete program: number 5 is both the queued Tx task's and
    the registered Rx task's; the frame goes to the Rx task (instance 1)
    and the Tx task (instance 0) stays queued. *)
Lemma rx_registration_shadows_acknowledgement_witness :
  let w2 := stored 1%nat None shadow_world in
  _route_data callbacks 5 [] shadow_world = ([1%nat], Return tt (cleared 1%nat w2)) /\
  _task_queue (cleared 1%nat w2) = [0%nat].
Proof.
  intros w2.
  apply (rx_registration_shadows_acknowledgement callbacks 5 [] shadow_world
           1%nat 0%nat [] None 0%nat w2); vm_compute; reflexivity.
Defined.

Lemma refresh_callback_refreshes : refreshes callbacks 1%nat.
Proof. intros w. eexists. reflexivity. Qed.

(** C3 on the concrete program.  The timer starts at 0 and the three
    ticks read the clock at 0.4, 0.8 and 1.2: the first writes the frame
    7,42, the second writes nothing, the third writes 7,42 again. *)
Lemma head_dispatch_and_retry_witness :
  let w0 := tx_world in
  let w1 := exec (run callbacks) w0 in
  let w2 := exec (run callbacks) w1 in
  let w3 := exec (run callbacks) w2 in
  (exists l payload, run callbacks w0 = (l, Return tt w1) /\
     writes w1 = writes w0 ++ [[7] ++ payload]) /\
  (run callbacks w1 = ([], Return tt w2) /\ writes w2 = writes w1) /\
  (exists l payload, run callbacks w2 = (l, Return tt w3) /\
     writes w3 = writes w2 ++ [[7] ++ payload]) /\
  _handle_current_task callbacks w1
    = ([], Return tt (set_clock_idx (S (clock_idx w1)) w1)) /\
  writes w3 = [[7; 42]; [7; 42]].
Proof.
  intros w0 w1 w2 w3.
  destruct (head_dispatch_and_retry callbacks) as (Hskip & _ & Hticks).
  assert (Halone : forall w, _SER_CH w = Some (mkSerial [] (writes w)) ->
            _task_queue w = [0%nat] -> is_Some (_start_time w) ->
            callback (tasks w 0%nat) = Some 1%nat ->
            queued_alone callbacks 0%nat w).
  { intros w Hs Hq Hst Hcb. split; [eexists; split; [exact Hs|reflexivity]|].
    split; [exact Hq|]. split; [exact Hst|].
    rewrite Hcb. exact refresh_callback_refreshes. }
  assert (H0 : queued_alone callbacks 0%nat w0).
  { apply Halone; try (vm_compute; reflexivity). eexists; vm_compute; reflexivity. }
  assert (H1 : queued_alone callbacks 0%nat w1).
  { apply Halone; try (vm_compute; reflexivity). eexists; vm_compute; reflexivity. }
  assert (H2 : queued_alone callbacks 0%nat w2).
  { apply Halone; try (vm_compute; reflexivity). eexists; vm_compute; reflexivity. }
  split; [|split; [|split; [|split]]].
  - destruct (proj1 (Hticks w0 0%nat H0)) as (l & w' & payload & Hrun & Hw & _).
    { vm_compute. discriminate. }
    assert (Hw' : w' = w1) by (unfold w1, exec; now rewrite Hrun).
    subst w'. exists l, payload. split; [exact Hrun|].
    rewrite Hw. vm_compute. reflexivity.
  - destruct (proj1 (proj2 (Hticks w1 0%nat H1))) as (w' & Hrun & Hw & _);
      [vm_compute; reflexivity ..|].
    assert (Hw' : w' = w2) by (unfold w2, exec; now rewrite Hrun).
    subst w'. split; [exact Hrun|exact Hw].
  - destruct (proj2 (proj2 (Hticks w2 0%nat H2))) as (l & w' & payload & Hrun & Hw & _);
      [vm_compute; reflexivity ..|].
    assert (Hw' : w' = w3) by (unfold w3, exec; now rewrite Hrun).
    subst w'. exists l, payload. split; [exact Hrun|].
    rewrite Hw. vm_compute. reflexivity.
  - apply (Hskip w1 0%nat [] (0 # 10)%Q); vm_compute; reflexivity.
  - vm_compute. reflexivity.
Defined.

(** * Further properties of the code *)

Section MoreProperties.

Set Default Proof Using "Type".

Context {M : Type} `{Message M}.
Variable callbacks : cbname -> World M -> outcome M unit.

Implicit Types (w : World M) (task head : tref) (task_id : Z)
  (msg_str payload : bytes).

(** ** Task construction *)

(** The four ways [Task.__init__] ends. *)
Lemma Task_init_cases task_id is_rx msg_obj cb w :
  Task_init task_id is_rx msg_obj cb w =
    if bool_decide (0 <= task_id < 256) then
      if is_task_registered task_id w then
        ([], Raise KeyError (constructed task_id is_rx msg_obj cb w))
      else if is_rx then
        match cb with
        | None => ([], Raise ValueError (constructed task_id is_rx msg_obj cb w))
        | Some _ =>
            ([], Return (next_task w)
                   (set_task_holder (<[task_id := next_task w]> (_task_holder w))
                      (constructed task_id is_rx msg_obj cb w)))
        end
      else ([], Return (next_task w) (constructed task_id is_rx msg_obj cb w))
    else
      ([], Raise OverflowError
             (set_tasks (<[next_task w := mkTask msg_obj is_rx cb []]> (tasks w))
                        (S (next_task w)) w)).
Proof.
  unfold Task_init, bind, get, modify, to_bytes1; cbn.
  destruct (bool_decide (0 <= task_id < 256)); cbn; [|reflexivity].
  change (is_task_registered task_id _) with (is_task_registered task_id w).
  destruct (is_task_registered task_id w); [reflexivity|].
  destruct is_rx; [|reflexivity]. now destruct cb.
Qed.

(** X1: a number outside 0..255 does not fit one byte: construction
    raises [OverflowError] whatever the direction and the callback, and
    the registry, the queue and the instances that exist are as before. *)
Theorem Task_init_out_of_range task_id is_rx msg_obj cb w
    (Hrange : ~ 0 <= task_id < 256) :
  exists w',
    Task_init task_id is_rx msg_obj cb w = ([], Raise OverflowError w') /\
    _task_holder w' = _task_holder w /\
    _task_queue w' = _task_queue w /\
    forall task, (task < next_task w)%nat -> tasks w' task = tasks w task.
Proof.
  eexists. rewrite Task_init_cases, bool_decide_eq_false_2 by assumption.
  split; [reflexivity|]. split; [reflexivity|]. split; [reflexivity|].
  intros task Hlt; cbn. apply fn_lookup_insert_ne. lia.
Qed.

(** X2: however [Task.__init__] ends, it calls no callback, leaves the
    port, the queue, the timer, the buffers and every existing instance
    alone, and allocates exactly one instance.  The registry changes in
    one case only: an Rx task with a callback and a free number is entered
    under that number. *)
Theorem Task_init_frame task_id is_rx msg_obj cb w :
  let r := Task_init task_id is_rx msg_obj cb w in
  let w' := world_of (snd r) in
  fst r = [] /\
  same_devices w w' /\
  next_task w' = S (next_task w) /\
  (forall task, (task < next_task w)%nat -> tasks w' task = tasks w task) /\
  (forall k, k <> task_id -> _task_holder w' !! k = _task_holder w !! k) /\
  (_task_holder w' = _task_holder w \/
   is_rx = true /\ is_Some cb /\ _task_holder w !! task_id = None /\
   snd r = Return (next_task w) w' /\
   _task_holder w' !! task_id = Some (next_task w)).
Proof.
  intros r w'. subst r w'. rewrite Task_init_cases.
  assert (Hold : forall task (t1 t2 : Task), (task < next_task w)%nat ->
            (<[next_task w := t1]> (<[next_task w := t2]> (tasks w))) task
            = tasks w task).
  { intros task t1 t2 Hlt. rewrite !fn_lookup_insert_ne by lia. reflexivity. }
  destruct (bool_decide (0 <= task_id < 256)); cbn.
  - destruct (is_task_registered task_id w) eqn:Hr; cbn.
    + repeat split; auto.
    + assert (Hfree : _task_holder w !! task_id = None).
      { unfold is_task_registered in Hr. apply bool_decide_eq_false in Hr.
        now apply eq_None_not_Some. }
      destruct is_rx; [destruct cb as [c|]|]; cbn;
        try (repeat split; auto; fail).
      split; [reflexivity|]. split; [repeat split|]. split; [reflexivity|].
      split; [auto|]. split.
      * intros k Hk. now apply lookup_insert_ne.
      * right. repeat split; eauto. apply lookup_insert_eq.
  - split; [reflexivity|]. split; [repeat split|]. split; [reflexivity|].
    split; [|auto]. intros task Hlt. apply fn_lookup_insert_ne. lia.
Qed.

(** X3: a successful Rx construction can be read back: [get_task] yields
    the new instance, which carries the given buffer, callback and the
    one-byte id; [is_task_registered] holds; other numbers are as before. *)
Theorem rx_registration_lookup task_id msg_obj c w
    (Hbyte : 0 <= task_id < 256)
    (Hfree : _task_holder w !! task_id = None) :
  exists self w',
    Task_init task_id true msg_obj (Some c) w = ([], Return self w') /\
    get_task task_id w' = Some self /\
    is_task_registered task_id w' = true /\
    tasks w' self = mkTask msg_obj true (Some c) [task_id] /\
    (forall k, k <> task_id -> get_task k w' = get_task k w) /\
    (forall k task, get_task k w = Some task -> (task < next_task w)%nat ->
       task <> self /\ tasks w' task = tasks w task).
Proof.
  eexists _, _. split; [now apply Task_init_rx|]. unfold get_task; cbn.
  split; [apply lookup_insert_eq|]. split.
  { unfold is_task_registered; cbn. apply bool_decide_eq_true_2.
    rewrite lookup_insert_eq. eauto. }
  split; [apply fn_lookup_insert|]. split.
  - intros k Hk. now apply lookup_insert_ne.
  - intros k task _ Hlt. split; [lia|].
    rewrite !fn_lookup_insert_ne by lia. reflexivity.
Qed.

Lemma registry_ok_Task_init task_id is_rx msg_obj cb w :
  registry_ok w ->
  registry_ok (world_of (snd (Task_init task_id is_rx msg_obj cb w))).
Proof.
  intros Hok. rewrite Task_init_cases.
  assert (Hold : forall w', _task_holder w' = _task_holder w ->
            next_task w' = S (next_task w) ->
            (forall task, (task < next_task w)%nat -> tasks w' task = tasks w task) ->
            registry_ok w').
  { intros w' Hh Hn Ht k task Hl. rewrite Hh in Hl.
    destruct (Hok k task Hl) as (Hlt & Hb & Hrx & Hcb & Hid).
    rewrite Hn, (Ht task Hlt). repeat split; auto; lia. }
  assert (Hins : forall task (t1 t2 : Task), (task < next_task w)%nat ->
            (<[next_task w := t1]> (<[next_task w := t2]> (tasks w))) task
            = tasks w task).
  { intros task t1 t2 Hlt. rewrite !fn_lookup_insert_ne by lia. reflexivity. }
  case_bool_decide as Hbyte; cbn.
  - destruct (is_task_registered task_id w); cbn;
      [apply Hold; cbn; auto|].
    destruct is_rx; [destruct cb as [c|]|]; cbn;
      try (apply Hold; cbn; auto; fail).
    intros k task Hl; cbn in *.
    destruct (decide (task_id = k)) as [<-|Hne].
    + rewrite lookup_insert_eq in Hl. injection Hl as <-.
      rewrite fn_lookup_insert; cbn. repeat split; eauto; lia.
    + rewrite lookup_insert_ne in Hl by assumption.
      destruct (Hok k task Hl) as (Hlt & Hb & Hrx & Hcb & Hid).
      rewrite (Hins task _ _ Hlt). repeat split; auto; lia.
  - apply Hold; cbn; auto.
    intros task Hlt. apply fn_lookup_insert_ne. lia.
Qed.

Lemma registry_ok_setup_step c w :
  registry_ok w -> registry_ok (setup_step c w).
Proof.
  intros Hok. destruct c as [task_id is_rx msg_obj cb|task]; unfold setup_step.
  - now apply registry_ok_Task_init.
  - unfold schedule, schedule_task, bind, get.
    destruct (negb (is_task_in_queue task w)); exact Hok.
Qed.

(** X4: whatever tasks a program builds and schedules after import, with
    whatever arguments, every registered number is a byte that maps to an
    allocated Rx instance with a callback and with that number as its id;
    so inbound dispatch never finds a task without callback. *)
Theorem registry_ok_setup (cs : list setup_call) (buffers : mref -> M) clk :
  registry_ok (setup cs (import_state buffers clk)).
Proof.
  unfold setup.
  assert (Hall : forall w, registry_ok w ->
            registry_ok (fold_left (fun w c => setup_step c w) cs w)).
  { induction cs as [|c cs IH]; intros w Hok; cbn; [assumption|].
    apply IH. now apply registry_ok_setup_step. }
  apply Hall. intros k task Hl. cbn in Hl. now rewrite lookup_empty in Hl.
Qed.

(** ** TopicTask *)

(** X5: [TopicTask.__init__] hands [send_data] to the base class as
    [is_rx] and passes no callback, so a topic task with [send_data=True]
    is never constructed: whatever the number and the state, the base
    initialiser raises, and nothing is registered. *)
Theorem TopicTask_send_data_raises task_id msg_obj rx_callback w :
  exists e w',
    TopicTask_init task_id true msg_obj rx_callback w = ([], Raise e w') /\
    (e = OverflowError \/ e = KeyError \/ e = ValueError) /\
    _task_holder w' = _task_holder w.
Proof.
  unfold TopicTask_init, bind. rewrite Task_init_cases.
  case_bool_decide; [destruct (is_task_registered task_id w)|]; cbn;
    eexists _, _; (split; [reflexivity|]); auto.
Qed.

Lemma route_data_unregistered task_id msg_str w :
  _task_holder w !! task_id = None ->
  fst (_route_data callbacks task_id msg_str w) = [].
Proof.
  intros Hreg. unfold _route_data, bind at 1, get. rewrite Hreg.
  destruct (_task_queue w) as [|head rest] eqn:Hq; [reflexivity|].
  unfold bind, index0. destruct (id (tasks w head)) as [|b bs]; [reflexivity|].
  cbn. case_bool_decide; [|reflexivity].
  unfold popleft. now rewrite Hq.
Qed.

(** X6: a topic task with [send_data=False] and a free number is built as
    a Tx task: it gets [rx_callback] as its callback but is not
    registered, so no inbound frame with its number reaches that
    callback. *)
Theorem TopicTask_receiver_unregistered task_id msg_obj rx_callback w
    (Hbyte : 0 <= task_id < 256)
    (Hfree : _task_holder w !! task_id = None) :
  exists self w',
    TopicTask_init task_id false msg_obj rx_callback w = ([], Return self w') /\
    tasks w' self = mkTask msg_obj false (Some rx_callback) [task_id] /\
    _task_holder w' = _task_holder w /\
    get_task task_id w' = None /\
    forall payload, fst (_route_data callbacks task_id payload w') = [].
Proof.
  eexists _, _. split.
  { unfold TopicTask_init.
    rewrite (bind_Return _ _ _ _ _ _ (Task_init_tx _ _ _ _ Hbyte Hfree)).
    reflexivity. }
  split; [cbn; now rewrite !fn_lookup_insert|].
  split; [reflexivity|]. split; [exact Hfree|].
  intros payload. now apply route_data_unregistered.
Qed.

(** ** The queue as its users see it *)

(** X7: right after [schedule] the task reports [was_not_handled]; the
    tasks queued before keep their places, ahead of it; and once the
    acknowledgement has removed a task from the head of a duplicate-free
    queue, it no longer reports [was_not_handled]. *)
Theorem schedule_was_not_handled task w :
  let w' := world_of (snd (schedule task w)) in
  was_not_handled task w' = true /\
  (exists suffix, _task_queue w' = _task_queue w ++ suffix) /\
  (forall rest, NoDup (_task_queue w) -> _task_queue w = task :: rest ->
     was_not_handled task (set_task_queue rest w) = false).
Proof.
  intros w'. subst w'. unfold schedule, was_not_handled, is_task_in_queue.
  rewrite schedule_task_queue. split; [|split].
  - apply bool_decide_eq_true_2.
    case_bool_decide as Hin; [assumption|].
    apply elem_of_app. right. now apply list_elem_of_singleton.
  - case_bool_decide; [exists []; now rewrite app_nil_r|eauto].
  - intros rest Hnd Hq. cbn. apply bool_decide_eq_false_2.
    rewrite Hq in Hnd. now apply NoDup_cons in Hnd as [Hnot _].
Qed.

(** ** Reading a frame *)

Lemma read_loop_conserves clk start : forall pending bin_msg k,
  fst (fst (read_loop clk start pending bin_msg k)) ++
  snd (fst (read_loop clk start pending bin_msg k)) = bin_msg ++ pending.
Proof.
  induction pending as [|b pending IH]; intros bin_msg k; cbn.
  - reflexivity.
  - destruct (a_lt (clk k - start) _CH_OPEN_TIME); cbn; [|reflexivity].
    rewrite IH, <- app_assoc. reflexivity.
Qed.

Lemma read_loop_all clk start : forall pending bin_msg k,
  (forall i, (i < length pending)%nat ->
     a_lt (clk (k + i)%nat - start) _CH_OPEN_TIME = true) ->
  read_loop clk start pending bin_msg k
    = (bin_msg ++ pending, [], (k + length pending)%nat).
Proof.
  induction pending as [|b pending IH]; intros bin_msg k Hin; cbn.
  - now rewrite app_nil_r, Nat.add_0_r.
  - pose proof (Hin 0%nat ltac:(cbn; lia)) as H0. rewrite Nat.add_0_r in H0.
    rewrite H0, IH.
    + rewrite <- app_assoc. cbn. f_equal. lia.
    + intros i Hi. replace (S k + i)%nat with (k + S i)%nat by lia.
      apply Hin. cbn. lia.
Qed.

(** X8: [_extract_message] neither loses nor reorders input.  On an open
    port it either returns a frame, and then the frame followed by what
    is still pending is what was pending before, or it raises
    [IndexError] with the pending bytes untouched.  It calls no callback,
    writes nothing, and leaves registry, queue, instances and buffers
    alone. *)
Theorem extract_message_conserves w s (Hs : _SER_CH w = Some s) :
  let r := _extract_message w in
  let w' := world_of (snd r) in
  fst r = [] /\
  (exists s', _SER_CH w' = Some s' /\ written s' = written s /\
     match snd r with
     | Return frame _ => fst frame :: snd frame ++ in_buffer s' = in_buffer s
     | Raise e _ => e = IndexError /\ in_buffer s' = in_buffer s
     end) /\
  _task_holder w' = _task_holder w /\ _task_queue w' = _task_queue w /\
  tasks w' = tasks w /\ msgs w' = msgs w.
Proof.
  intros r w'. subst r w'.
  unfold _extract_message, bind, time, ser_ch, get, modify; cbn. rewrite Hs.
  match goal with
  | |- context [read_loop ?c ?t ?p ?b ?k] =>
      pose proof (read_loop_conserves c t p b k) as Hcons;
      destruct (read_loop c t p b k) as [[bin_msg rest] k']
  end.
  cbn in Hcons. destruct bin_msg as [|task_id proto_msg]; cbn.
  - split; [reflexivity|]. split; [|repeat split].
    eexists. split; [reflexivity|]. cbn. auto.
  - split; [reflexivity|]. split; [|repeat split].
    eexists. split; [reflexivity|]. cbn. auto.
Qed.

(** X9: when every reading of the loop is within [_CH_OPEN_TIME] of the
    start, one call takes all pending bytes as one frame: the first is
    the task number, the others the payload, and nothing stays pending.
    The clock is read once at the start and once per byte. *)
Theorem extract_message_whole_buffer w s task_id proto_msg
    (Hs : _SER_CH w = Some s)
    (Hpending : in_buffer s = task_id :: proto_msg)
    (Hbudget : forall i, (i <= length proto_msg)%nat ->
       a_lt (clock w (S (clock_idx w) + i)%nat - clock w (clock_idx w))
            _CH_OPEN_TIME = true) :
  _extract_message w =
    ([], Return (task_id, proto_msg)
           (set_clock_idx (clock_idx w + 2 + length proto_msg)%nat
              (set_SER_CH (Some (mkSerial [] (written s))) w))).
Proof.
  unfold _extract_message, bind, time, ser_ch, get, modify; cbn. rewrite Hs.
  rewrite Hpending, read_loop_all.
  - replace (clock_idx w + 2 + length proto_msg)%nat
      with (S (clock_idx w) + length (task_id :: proto_msg))%nat by (cbn; lia).
    reflexivity.
  - intros i Hi. apply Hbudget. cbn in Hi. lia.
Qed.

(** X10: a read that takes no byte raises [IndexError] at [bin_msg[0]].
    That happens when nothing is pending, and also when bytes are pending
    but the first reading of the loop is already [_CH_OPEN_TIME] or more
    after the start; in the second case [run] itself raises, with the
    bytes still pending and nothing routed. *)
Theorem extract_message_empty_read w s
    (Hs : _SER_CH w = Some s)
    (Hnone : in_buffer s = [] \/
       a_lt (clock w (S (clock_idx w)) - clock w (clock_idx w)) _CH_OPEN_TIME
         = false) :
  exists w',
    _handle_incoming_message callbacks w = ([], Raise IndexError w') /\
    _SER_CH w' = Some s /\ _task_queue w' = _task_queue w /\
    (in_buffer s <> [] -> run callbacks w = ([], Raise IndexError w')).
Proof.
  assert (Hx : exists k, _extract_message w =
            ([], Raise IndexError
                   (set_clock_idx k (set_SER_CH (Some s) w)))).
  { unfold _extract_message, bind, time, ser_ch, get, modify; cbn. rewrite Hs.
    destruct s as [pending out]; cbn in *.
    destruct pending as [|b pending]; cbn; [eauto|].
    destruct Hnone as [Hnil| ->]; [discriminate|]. cbn. eauto. }
  destruct Hx as (k & Hx). eexists.
  split; [unfold _handle_incoming_message; now rewrite (bind_Raise _ _ _ _ _ _ Hx)|].
  split; [reflexivity|]. split; [reflexivity|].
  intros Hne.
  assert (Hn : in_waiting w = ([], Return (length (in_buffer s)) w)).
  { unfold in_waiting, bind, ser_ch. now rewrite Hs. }
  unfold run. rewrite (bind_Return _ _ _ _ _ _ Hn).
  destruct (in_buffer s) as [|b bs]; [congruence|].
  cbn [length Nat.eqb negb].
  unfold _handle_incoming_message. rewrite bind_assoc.
  now rewrite (bind_Raise _ _ _ _ _ _ Hx).
Qed.

(** ** Ticks with nothing to do, and ticks before [init] *)

(** X11: with the port open, no pending input and an empty queue, [run]
    changes nothing at all; it does not even read the clock. *)
Theorem run_idle w s
    (Hs : _SER_CH w = Some s) (Hin : in_buffer s = [])
    (Hq : _task_queue w = []) :
  run callbacks w = ([], Return tt w).
Proof.
  rewrite (run_idle_port callbacks w s Hs Hin).
  unfold outbound_handling, bind, get. now rewrite Hq.
Qed.

(** X12: before [init] the port is [None]: [run] and [alert_completion]
    raise [AttributeError] and change nothing, whatever is registered or
    queued. *)
Theorem run_before_init w (Hs : _SER_CH w = None) :
  run callbacks w = ([], Raise AttributeError w) /\
  forall task, alert_completion task w = ([], Raise AttributeError w).
Proof.
  split.
  - unfold run, in_waiting, bind, ser_ch. now rewrite Hs.
  - intros task.
    unfold alert_completion, pass_completion_message, _transmit_message.
    unfold ser_write, bind, get, ser_ch. now rewrite Hs.
Qed.

(** ** Callbacks that raise *)

(** X13: an exception raised by an Rx callback leaves [run] as it is.
    The final world is the one the callback left: [Clear] is not reached,
    so the buffer still holds the parsed payload unless the callback
    emptied it, and outbound handling is skipped in that tick. *)
Theorem rx_callback_raises w0 w task_id payload task m c e w2
    (Hframe : _extract_message w0 = ([], Return (task_id, payload) w))
    (Hreg : _task_holder w !! task_id = Some task)
    (Hparse : ParseFromString (msgs w (msg (tasks w task))) payload = Parsed m)
    (Hcb : callback (tasks w task) = Some c)
    (Hrun : callbacks c (stored task m w) = Raise e w2) :
  run callbacks w0 = ([task], Raise e w2) /\
  msgs (stored task m w) (msg (tasks w task)) = m.
Proof.
  assert (Hroute : _route_data callbacks task_id payload w = ([task], Raise e w2)).
  { unfold _route_data, bind, get; cbn. rewrite Hreg.
    unfold msg_ParseFromString. rewrite Hparse.
    unfold call_callback; cbn. rewrite Hcb.
    fold (stored task m w). now rewrite Hrun. }
  split.
  - rewrite (run_inbound callbacks _ _ _ Hframe). cbn [fst snd].
    now rewrite (bind_Raise _ _ _ _ _ _ Hroute).
  - unfold stored; cbn. apply fn_lookup_insert.
Qed.

(** X14: an exception raised by the callback of the queue head leaves
    [_handle_current_task] before anything is transmitted.  The final
    world is the one the callback left: no frame is written, the buffer
    is not cleared, the timer is not restarted and the task is not
    recorded as handled. *)
Theorem tx_callback_raises w task rest st c e wc
    (Hq : _task_queue w = task :: rest)
    (Hst : _start_time w = Some st)
    (Hcond : _prev_task w <> Some task \/ timer_expired w = true)
    (Hcb : callback (tasks w task) = Some c)
    (Hrun : callbacks c (set_clock_idx (S (clock_idx w)) w) = Raise e wc) :
  _handle_current_task callbacks w = ([task], Raise e wc).
Proof.
  unfold timer_expired in Hcond. rewrite Hst in Hcond.
  unfold _handle_current_task, queue_head, get, time, start_time.
  unfold bind at 1 2 3 4. cbn -[callback_if_set]. rewrite Hq, Hst.
  set (expired := a_gt _ _) in *.
  assert (Hgo : bool_decide (_prev_task w = Some task) && expired
                || negb (bool_decide (_prev_task w = Some task)) = true).
  { destruct Hcond as [Hne| ->].
    - rewrite bool_decide_eq_false_2 by assumption. reflexivity.
    - now destruct (bool_decide _). }
  rewrite Hgo.
  assert (Hc : callback_if_set callbacks task (set_clock_idx (S (clock_idx w)) w)
               = ([task], Raise e wc)).
  { rewrite (callback_if_set_Some callbacks task
               (set_clock_idx (S (clock_idx w)) w) c Hcb).
    now rewrite Hrun. }
  now rewrite (bind_Raise _ _ _ _ _ _ Hc).
Qed.

(** ** An acknowledgement and the next task in one tick *)

Lemma route_data_ack task_id msg_str w head rest :
  _task_holder w !! task_id = None ->
  _task_queue w = head :: rest ->
  id (tasks w head) !! 0%nat = Some task_id ->
  _route_data callbacks task_id msg_str w = ([], Return tt (set_task_queue rest w)).
Proof.
  intros Hreg Hq Hid.
  unfold _route_data, bind at 1, get. rewrite Hreg, Hq.
  rewrite (bind_Return _ _ _ _ _ _ (index0_lookup _ _ _ Hid)).
  rewrite bool_decide_eq_true_2 by reflexivity.
  unfold bind, popleft, ret. now rewrite Hq.
Qed.

(** X15: inbound handling comes first in a tick, so an acknowledgement
    frees the head before outbound handling looks at the queue.  When the
    acknowledged task was the only one, the tick writes nothing and the
    queue is empty.  When another task waits behind it, that task is
    transmitted in the same tick and becomes the recorded head. *)
Theorem acknowledgement_then_dispatch w0 w task_id payload head rest
    (Hframe : _extract_message w0 = ([], Return (task_id, payload) w))
    (Hreg : _task_holder w !! task_id = None)
    (Hq : _task_queue w = head :: rest)
    (Hid : id (tasks w head) !! 0%nat = Some task_id) :
  (rest = [] ->
   run callbacks w0 = ([], Return tt (set_task_queue [] w))) /\
  (forall next rest' st s,
     rest = next :: rest' ->
     _prev_task w <> Some next ->
     _start_time w = Some st ->
     _SER_CH w = Some s ->
     callback (tasks w next) = None ->
     exists w',
       run callbacks w0 = ([], Return tt w') /\
       writes w' = writes w ++ [frame_of next w] /\
       _task_queue w' = next :: rest' /\
       _prev_task w' = Some next).
Proof.
  pose proof (route_data_ack _ payload _ _ _ Hreg Hq Hid) as Hroute.
  assert (Hrun : run callbacks w0
                 = outbound_handling callbacks (set_task_queue rest w)).
  { rewrite (run_inbound callbacks _ _ _ Hframe). cbn [fst snd].
    rewrite (bind_Return _ _ _ _ _ _ Hroute).
    now destruct (outbound_handling callbacks (set_task_queue rest w)). }
  split.
  - intros ->. rewrite Hrun. reflexivity.
  - intros next rest' st s -> Hprev Hst Hs Hnone.
    set (w1 := set_task_queue (next :: rest') w) in *.
    assert (Hc : callback_if_set callbacks next
                   (set_clock_idx (S (clock_idx w1)) w1)
                 = ([], Return tt (set_clock_idx (S (clock_idx w1)) w1)))
      by now apply callback_if_set_None.
    pose proof (handle_current_task_act callbacks w1 next rest' st [] _ s
                  eq_refl Hst (or_introl Hprev) Hc Hs) as Hact.
    eexists. split.
    { rewrite Hrun, (outbound_handling_head callbacks w1 next rest' eq_refl).
      exact Hact. }
    unfold timer_reset.
    destruct (a_gt (clock w1 (clock_idx w1) - st) _TASK_RESET_TIME);
      (split; [unfold writes; cbn; rewrite Hs; reflexivity|]);
      split; reflexivity.
Qed.

(** ** Retransmission *)

Ltac conjs := repeat match goal with |- _ /\ _ => split end.

(** X16: retries never give a task up.  With one task queued, a callback
    that only refreshes buffers and no input, any number of ticks ends
    normally with the task still the only one queued; at most one frame
    is written per tick, and every frame written starts with the task's
    id. *)
Theorem run_loop_keeps_task task : forall n w,
  queued_alone callbacks task w ->
  exists l w' frames,
    run_loop callbacks n w = (l, Return tt w') /\
    queued_alone callbacks task w' /\
    tasks w' = tasks w /\
    writes w' = writes w ++ frames /\
    (length frames <= n)%nat /\
    Forall (fun frame => exists payload, frame = id (tasks w task) ++ payload) frames.
Proof.
  induction n as [|n IH]; intros w Halone.
  - exists [], w, []. cbn. rewrite app_nil_r. conjs; auto.
  - assert (Hstep : exists l1 w1 frames1,
              run callbacks w = (l1, Return tt w1) /\
              queued_alone callbacks task w1 /\ tasks w1 = tasks w /\
              writes w1 = writes w ++ frames1 /\ (length frames1 <= 1)%nat /\
              Forall (fun frame => exists payload,
                        frame = id (tasks w task) ++ payload) frames1).
    { destruct (decide (_prev_task w = Some task)) as [Hprev|Hprev];
        [destruct (timer_expired w) eqn:Hexp|].
      - destruct (run_transmits callbacks w task Halone (or_intror Hexp))
          as (l1 & w1 & payload & Hrun & Hw & Hal & _ & Ht).
        exists l1, w1, [id (tasks w task) ++ payload].
        conjs; auto. constructor; eauto.
      - destruct (run_waits callbacks w task Halone Hprev Hexp)
          as (w1 & Hrun & Hw & Hal & _ & Ht).
        exists [], w1, []. rewrite app_nil_r. conjs; auto.
      - destruct (run_transmits callbacks w task Halone (or_introl Hprev))
          as (l1 & w1 & payload & Hrun & Hw & Hal & _ & Ht).
        exists l1, w1, [id (tasks w task) ++ payload].
        conjs; auto. constructor; eauto. }
    destruct Hstep as (l1 & w1 & frames1 & Hrun & Hal & Ht & Hw & Hlen & Hall).
    destruct (IH w1 Hal) as (l2 & w2 & frames2 & Hloop & Hal2 & Ht2 & Hw2 & Hlen2 & Hall2).
    exists (l1 ++ l2), w2, (frames1 ++ frames2).
    split.
    { cbn [run_loop]. rewrite (bind_Return _ _ _ _ _ _ Hrun). now rewrite Hloop. }
    split; [assumption|]. split; [congruence|].
    split; [rewrite Hw2, Hw; now rewrite app_assoc|].
    split; [rewrite length_app; lia|].
    apply Forall_app. split; [assumption|]. now rewrite Ht in Hall2.
Qed.

(** The world after a tick that transmits the only queued task. *)
Lemma run_transmits_world w task st :
  queued_alone callbacks task w ->
  _start_time w = Some st ->
  _prev_task w <> Some task \/ timer_expired w = true ->
  exists l ms s,
    _SER_CH w = Some s /\
    (callback (tasks w task) = None -> ms = msgs w /\ l = []) /\
    run callbacks w =
      (l, Return tt
            (set_prev_task (Some task)
               (timer_reset (a_gt (clock w (clock_idx w) - st) _TASK_RESET_TIME)
                  (cleared task
                     (sent s (frame_of task (set_msgs ms (set_clock_idx (S (clock_idx w)) w)))
                        (set_msgs ms (set_clock_idx (S (clock_idx w)) w))))))).
Proof.
  intros ((s & Hs & Hin) & Hq & _ & Hquiet) Hst Hcond.
  unfold timer_expired in Hcond. rewrite Hst in Hcond.
  set (w' := set_clock_idx (S (clock_idx w)) w).
  assert (Hcb : exists l ms,
             (callback (tasks w task) = None -> ms = msgs w /\ l = []) /\
             callback_if_set callbacks task w' = (l, Return tt (set_msgs ms w'))).
  { destruct (callback (tasks w task)) as [c|] eqn:Hc.
    - destruct (Hquiet w') as (ms & Hms). exists [task], ms.
      split; [discriminate|].
      rewrite (callback_if_set_Some callbacks task w' c Hc). now rewrite Hms.
    - exists [], (msgs w'). split; [split; reflexivity|].
      now rewrite (callback_if_set_None callbacks task w' Hc). }
  destruct Hcb as (l & ms & Hms & Hcb).
  assert (Hs' : _SER_CH (set_msgs ms w') = Some s) by exact Hs.
  exists l, ms, s. split; [exact Hs|]. split; [exact Hms|].
  rewrite (run_idle_port callbacks w s Hs Hin).
  rewrite (outbound_handling_head callbacks w task [] Hq).
  exact (handle_current_task_act callbacks w task [] st l _ s Hq Hst Hcond Hcb Hs').
Qed.

(** X17: a transmission restarts the timer only when the timer had
    expired.  So the first transmission of a task, made before the timer
    expires, does not restart it, and the next tick retransmits as soon as
    the old timer expires, however short the time since the first
    transmission. *)
Theorem retransmission_after_old_timer w task st
    (Halone : queued_alone callbacks task w)
    (Hprev : _prev_task w <> Some task)
    (Hst : _start_time w = Some st)
    (Hfirst : a_gt (clock w (clock_idx w) - st) _TASK_RESET_TIME = false)
    (Hsecond : a_gt (clock w (S (clock_idx w)) - st) _TASK_RESET_TIME = true) :
  exists l1 w1 l2 w2 payload1 payload2,
    run callbacks w = (l1, Return tt w1) /\
    _start_time w1 = Some st /\
    run callbacks w1 = (l2, Return tt w2) /\
    writes w2 = writes w ++ [id (tasks w task) ++ payload1;
                             id (tasks w task) ++ payload2].
Proof.
  destruct (run_transmits_world w task st Halone Hst (or_introl Hprev))
    as (l1 & ms & s & Hs & _ & Hrun).
  rewrite Hfirst in Hrun. cbn [timer_reset] in Hrun.
  destruct (run_transmits callbacks w task Halone (or_introl Hprev))
    as (l1' & w1 & payload1 & Hrun' & Hw1 & Hal1 & _ & Ht1).
  rewrite Hrun in Hrun'. injection Hrun' as <- Hw1eq.
  assert (Hexp1 : timer_expired w1 = true).
  { rewrite <- Hw1eq. unfold timer_expired; cbn. rewrite Hst. exact Hsecond. }
  destruct (run_transmits callbacks w1 task Hal1 (or_intror Hexp1))
    as (l2 & w2 & payload2 & Hrun2 & Hw2 & _).
  exists l1, w1, l2, w2, payload1, payload2.
  split; [now rewrite Hrun, Hw1eq|].
  split; [rewrite <- Hw1eq; exact Hst|].
  split; [exact Hrun2|].
  rewrite Hw2, Hw1, Ht1, <- app_assoc. reflexivity.
Qed.

(** X18: a task that is scheduled again after its acknowledgement is
    still the task handled last.  Outbound handling treats it as a
    repeat: nothing is sent until the timer expires. *)
Theorem rescheduled_task_waits w task s
    (Hs : _SER_CH w = Some s) (Hin : in_buffer s = [])
    (Hq : _task_queue w = [])
    (Hprev : _prev_task w = Some task)
    (Hexp : timer_expired w = false)
    (Hst : is_Some (_start_time w))
    (Hquiet : match callback (tasks w task) with
              | Some c => refreshes callbacks c
              | None => True
              end) :
  exists w1 w2,
    schedule task w = ([], Return tt w1) /\
    run callbacks w1 = ([], Return tt w2) /\
    writes w2 = writes w /\
    was_not_handled task w2 = true.
Proof.
  assert (Hsched : schedule task w
                   = ([], Return tt (set_task_queue (_task_queue w ++ [task]) w))).
  { apply schedule_task_absent. rewrite Hq. apply not_elem_of_nil. }
  rewrite Hq in Hsched. cbn in Hsched.
  set (w1 := set_task_queue [task] w) in *.
  assert (Hal : queued_alone callbacks task w1).
  { split; [exists s; split; [exact Hs|exact Hin]|].
    split; [reflexivity|]. split; [exact Hst|exact Hquiet]. }
  destruct (run_waits callbacks w1 task Hal Hprev Hexp)
    as (w2 & Hrun & Hw & (_ & Hq2 & _) & _).
  exists w1, w2. split; [exact Hsched|]. split; [exact Hrun|].
  split; [exact Hw|].
  unfold was_not_handled, is_task_in_queue. rewrite Hq2.
  apply bool_decide_eq_true_2. now apply list_elem_of_singleton.
Qed.

(** X19: the buffer is cleared after every transmission and only the
    callback refills it.  For a task without callback the first frame
    carries the buffer's contents and the retransmission carries the
    contents of the cleared buffer. *)
Theorem retransmission_of_cleared_buffer w task st
    (Halone : queued_alone callbacks task w)
    (Hnone : callback (tasks w task) = None)
    (Hst : _start_time w = Some st)
    (Hcond : _prev_task w <> Some task \/ timer_expired w = true) :
  exists w1,
    run callbacks w = ([], Return tt w1) /\
    writes w1 = writes w ++ [frame_of task w] /\
    msgs w1 (msg (tasks w task)) = Clear (msgs w (msg (tasks w task))) /\
    (timer_expired w1 = true ->
     exists w2,
       run callbacks w1 = ([], Return tt w2) /\
       writes w2 = writes w1 ++
         [id (tasks w task) ++
          SerializePartialToString (Clear (msgs w (msg (tasks w task))))]).
Proof.
  assert (Hgen : forall w st,
            queued_alone callbacks task w -> callback (tasks w task) = None ->
            _start_time w = Some st ->
            _prev_task w <> Some task \/ timer_expired w = true ->
            exists w1,
              run callbacks w = ([], Return tt w1) /\
              writes w1 = writes w ++ [frame_of task w] /\
              msgs w1 (msg (tasks w task)) = Clear (msgs w (msg (tasks w task))) /\
              queued_alone callbacks task w1 /\ tasks w1 = tasks w /\
              is_Some (_start_time w1)).
  { clear. intros w st Halone Hnone Hst Hcond.
    destruct (run_transmits_world w task st Halone Hst Hcond)
      as (l & ms & s & Hs & Hms & Hrun).
    destruct (Hms Hnone) as [-> ->].
    destruct (run_transmits callbacks w task Halone Hcond)
      as (l' & w1 & payload & Hrun' & _ & Hal1 & _ & Ht1).
    rewrite Hrun in Hrun'. injection Hrun' as Hl Hw1eq.
    exists w1. split; [now rewrite Hrun, Hw1eq|].
    split.
    { rewrite <- Hw1eq. unfold timer_reset, writes.
      destruct (a_gt (clock w (clock_idx w) - st) _TASK_RESET_TIME);
        cbn; rewrite Hs; reflexivity. }
    split.
    { rewrite <- Hw1eq. unfold timer_reset.
      destruct (a_gt (clock w (clock_idx w) - st) _TASK_RESET_TIME);
        cbn; apply fn_lookup_insert. }
    split; [exact Hal1|]. split; [exact Ht1|].
    destruct Hal1 as (_ & _ & Hsome & _); exact Hsome. }
  destruct (Hgen w st Halone Hnone Hst Hcond)
    as (w1 & Hrun & Hw & Hm & Hal1 & Ht1 & (st1 & Hst1)).
  exists w1. split; [exact Hrun|]. split; [exact Hw|]. split; [exact Hm|].
  intros Hexp1.
  assert (Hnone1 : callback (tasks w1 task) = None) by now rewrite Ht1.
  destruct (Hgen w1 st1 Hal1 Hnone1 Hst1 (or_intror Hexp1))
    as (w2 & Hrun2 & Hw2 & _).
  exists w2. split; [exact Hrun2|].
  rewrite Hw2. unfold frame_of. now rewrite Ht1, Hm.
Qed.

End MoreProperties.

(** ** Finding the port *)

Lemma str_in_occurs sub s : str_in sub s = true <-> occurs_in sub s.
Proof.
  unfold str_in, occurs_in.
  destruct (String.index 0 sub s) as [n|] eqn:E; split.
  - intros _. exists n. now apply (String.index_correct1 0).
  - reflexivity.
  - discriminate.
  - intros (m & Hm). exfalso. destruct sub as [|a sub].
    + apply String.index_correct4 in E. lia.
    + apply (String.index_correct3 0 m _ _ E); [discriminate|lia|exact Hm].
Qed.

(** X20: [_get_port] returns the first enumerated port whose description
    contains the search string, and [None] exactly when no description
    contains it. *)
Theorem get_port_first_match port_search comports :
  match _get_port port_search comports with
  | Some port =>
      exists before after,
        comports = before ++ port :: after /\
        occurs_in port_search (description port) /\
        Forall (fun p => ~ occurs_in port_search (description p)) before
  | None =>
      Forall (fun p => ~ occurs_in port_search (description p)) comports
  end.
Proof.
  induction comports as [|p comports IH]; cbn; [constructor|].
  destruct (str_in port_search (description p)) eqn:E.
  - exists [], comports. split; [reflexivity|].
    split; [now apply str_in_occurs|constructor].
  - assert (Hp : ~ occurs_in port_search (description p)).
    { intros Ho. apply str_in_occurs in Ho. congruence. }
    destruct (_get_port port_search comports) as [port|].
    + destruct IH as (before & after & -> & Ho & Hall).
      exists (p :: before), after. split; [reflexivity|].
      split; [exact Ho|now constructor].
    + now constructor.
Qed.

(** X21: [init] opens the device of the first matching port and starts
    the timer at the current clock reading; what was registered and queued
    before stays.  When no port matches, [init] raises [AttributeError]
    and assigns nothing: the scheduler stays without port. *)
Theorem init_search_outcome {M : Type} (comports : list ListPortInfo)
    (serial_at : String.string -> Serial) port_search (w : World M) :
  match _get_port port_search comports with
  | Some port =>
      exists w',
        init_search comports serial_at port_search w = ([], Return tt w') /\
        _SER_CH w' = Some (serial_at (device port)) /\
        _start_time w' = Some (clock w (clock_idx w)) /\
        _task_holder w' = _task_holder w /\
        _task_queue w' = _task_queue w /\
        tasks w' = tasks w
  | None =>
      init_search comports serial_at port_search w = ([], Raise AttributeError w)
  end.
Proof.
  unfold init_search. destruct (_get_port port_search comports) as [port|].
  - eexists. split; [reflexivity|]. repeat split.
  - reflexivity.
Qed.

(** * The further properties on the concrete program *)

(** X1 on the import-time state: the numbers 256 and -1. *)
Lemma Task_init_out_of_range_witness :
  (exists w', Task_init 256 true 0%nat (Some 0%nat) (fresh 0 1)
              = ([], Raise OverflowError w') /\
     _task_holder w' = _task_holder (fresh 0 1) /\
     _task_queue w' = _task_queue (fresh 0 1) /\
     forall task, (task < next_task (fresh 0 1))%nat ->
       tasks w' task = tasks (fresh 0 1) task) /\
  (exists w', Task_init (-1) false 0%nat None (rx_world 0 [])
              = ([], Raise OverflowError w') /\
     _task_holder w' = _task_holder (rx_world 0 []) /\
     _task_queue w' = _task_queue (rx_world 0 []) /\
     forall task, (task < next_task (rx_world 0 []))%nat ->
       tasks w' task = tasks (rx_world 0 []) task).
Proof.
  split.
  - apply (Task_init_out_of_range 256 true 0%nat (Some 0%nat) (fresh 0 1)). lia.
  - apply (Task_init_out_of_range (-1) false 0%nat None (rx_world 0 [])). lia.
Defined.

(** X3 with Rx task 5 registered: Rx task 6 is added and read back. *)
Lemma rx_registration_lookup_witness :
  exists self w',
    Task_init 6 true 1%nat (Some 2%nat) (rx_world 0 []) = ([], Return self w') /\
    get_task 6 w' = Some self /\
    is_task_registered 6 w' = true /\
    tasks w' self = mkTask 1%nat true (Some 2%nat) [6] /\
    (forall k, k <> 6 -> get_task k w' = get_task k (rx_world 0 [])) /\
    (forall k task, get_task k (rx_world 0 []) = Some task ->
       (task < next_task (rx_world 0 []))%nat ->
       task <> self /\ tasks w' task = tasks (rx_world 0 []) task).
Proof.
  apply (rx_registration_lookup 6 1%nat 2%nat (rx_world 0 []));
    [lia|vm_compute; reflexivity].
Defined.

(** X6 on the import-time state. *)
Lemma TopicTask_receiver_unregistered_witness :
  exists self w',
    TopicTask_init 5 false 0%nat 0%nat (fresh 0 1) = ([], Return self w') /\
    tasks w' self = mkTask 0%nat false (Some 0%nat) [5] /\
    _task_holder w' = _task_holder (fresh 0 1) /\
    get_task 5 w' = None /\
    forall payload, fst (_route_data callbacks 5 payload w') = [].
Proof.
  apply (TopicTask_receiver_unregistered callbacks 5 0%nat 0%nat (fresh 0 1));
    [lia|vm_compute; reflexivity].
Defined.

(** X7 on the queue 0,1: instance 0 is no longer pending once it has
    left the head. *)
Lemma schedule_was_not_handled_witness :
  was_not_handled 0%nat (set_task_queue [1%nat] two_tx_world) = false.
Proof.
  apply (schedule_was_not_handled 0%nat two_tx_world).
  - change (NoDup [0%nat; 1%nat]). apply NoDup_cons. split.
    + intros Hin. apply list_elem_of_singleton in Hin. discriminate.
    + apply NoDup_singleton.
  - vm_compute. reflexivity.
Defined.

(** X8 on a port with the bytes 5,9 pending. *)
Lemma extract_message_conserves_witness :
  let r := _extract_message (rx_world 0 [5; 9]) in
  let w' := world_of (snd r) in
  fst r = [] /\
  (exists s', _SER_CH w' = Some s' /\ written s' = written (port [5; 9]) /\
     match snd r with
     | Return frame _ => fst frame :: snd frame ++ in_buffer s' = in_buffer (port [5; 9])
     | Raise e _ => e = IndexError /\ in_buffer s' = in_buffer (port [5; 9])
     end) /\
  _task_holder w' = _task_holder (rx_world 0 [5; 9]) /\
  _task_queue w' = _task_queue (rx_world 0 [5; 9]) /\
  tasks w' = tasks (rx_world 0 [5; 9]) /\ msgs w' = msgs (rx_world 0 [5; 9]).
Proof.
  apply (extract_message_conserves (rx_world 0 [5; 9]) (port [5; 9])).
  vm_compute. reflexivity.
Defined.

(** X9 on the same port, the clock advancing by 0.01 per reading. *)
Lemma extract_message_whole_buffer_witness :
  let w := rx_world 0 [5; 9] in
  _extract_message w =
    ([], Return (5, [9])
           (set_clock_idx (clock_idx w + 3)%nat
              (set_SER_CH (Some (mkSerial [] [])) w))).
Proof.
  intros w.
  apply (extract_message_whole_buffer (rx_world 0 [5; 9]) (port [5; 9]) 5 [9]);
    [vm_compute; reflexivity ..|].
  intros i Hi. destruct i as [|[|i]]; [vm_compute; reflexivity ..|].
  cbn in Hi. lia.
Defined.

(** X10 with a clock that advances by 0.3 per reading: the bytes 5,9 are
    pending and the tick raises [IndexError]. *)
Lemma extract_message_empty_read_witness :
  let w := exec (init (port [5; 9])) (fresh 0 (3 # 10)) in
  exists w',
    _handle_incoming_message callbacks w = ([], Raise IndexError w') /\
    _SER_CH w' = Some (port [5; 9]) /\ _task_queue w' = _task_queue w /\
    (in_buffer (port [5; 9]) <> [] -> run callbacks w = ([], Raise IndexError w')).
Proof.
  intros w.
  apply (extract_message_empty_read callbacks w (port [5; 9]));
    [vm_compute; reflexivity|].
  right. vm_compute. reflexivity.
Defined.

(** X11 right after [init]. *)
Lemma run_idle_witness :
  run callbacks (exec (init (port [])) (fresh 0 1))
    = ([], Return tt (exec (init (port [])) (fresh 0 1))).
Proof.
  apply (run_idle callbacks (exec (init (port [])) (fresh 0 1)) (port []));
    vm_compute; reflexivity.
Defined.

(** X12 on the import-time state. *)
Lemma run_before_init_witness :
  run callbacks (fresh 0 1) = ([], Raise AttributeError (fresh 0 1)) /\
  forall task, alert_completion task (fresh 0 1)
               = ([], Raise AttributeError (fresh 0 1)).
Proof.
  apply (run_before_init callbacks (fresh 0 1)). reflexivity.
Defined.

(** X13 with an Rx callback that raises: the buffer keeps the parsed 9. *)
Lemma rx_callback_raises_witness :
  let w0 := rx_world 3 [5; 9] in
  let w := world_of (snd (_extract_message w0)) in
  run callbacks w0 = ([0%nat], Raise (UserError 3) (stored 0%nat (Some 9) w)) /\
  msgs (stored 0%nat (Some 9) w) 0%nat = Some 9.
Proof.
  intros w0 w.
  apply (rx_callback_raises callbacks w0 w 5 [9] 0%nat (Some 9) 3%nat
           (UserError 3) (stored 0%nat (Some 9) w)); vm_compute; reflexivity.
Defined.

(** X14 with a Tx callback that raises: nothing is written. *)
Lemma tx_callback_raises_witness :
  let w := tx_raising_world in
  _handle_current_task callbacks w
    = ([0%nat], Raise (UserError 3) (set_clock_idx (S (clock_idx w)) w)) /\
  writes (set_clock_idx (S (clock_idx w)) w) = [].
Proof.
  intros w. split; [|vm_compute; reflexivity].
  apply (tx_callback_raises callbacks w 0%nat [] (0 # 10)%Q 3%nat (UserError 3));
    try (vm_compute; reflexivity).
  left. vm_compute. discriminate.
Defined.

(** X15 on the queue 0,1 with the acknowledgement of task 7 pending: task
    8 is transmitted in the same tick. *)
Lemma acknowledgement_then_dispatch_witness :
  let w0 := two_tx_acknowledged in
  let w := world_of (snd (_extract_message w0)) in
  exists w',
    run callbacks w0 = ([], Return tt w') /\
    writes w' = writes w ++ [frame_of 1%nat w] /\
    _task_queue w' = [1%nat] /\
    _prev_task w' = Some 1%nat.
Proof.
  intros w0 w.
  apply (proj2 (acknowledgement_then_dispatch callbacks w0 w 7 [] 0%nat [1%nat]
                  ltac:(vm_compute; reflexivity) ltac:(vm_compute; reflexivity)
                  ltac:(vm_compute; reflexivity) ltac:(vm_compute; reflexivity))
           1%nat [] (0 # 100)%Q (mkSerial [] []));
    try (vm_compute; reflexivity).
  vm_compute. discriminate.
Defined.

Lemma queued_alone_demo (w : World Reading) :
  _SER_CH w = Some (mkSerial [] (writes w)) ->
  _task_queue w = [0%nat] ->
  is_Some (_start_time w) ->
  callback (tasks w 0%nat) = Some 1%nat \/ callback (tasks w 0%nat) = None ->
  queued_alone callbacks 0%nat w.
Proof.
  intros Hs Hq Hst Hcb. split; [eexists; split; [exact Hs|reflexivity]|].
  split; [exact Hq|]. split; [exact Hst|].
  destruct Hcb as [-> | ->]; [exact refresh_callback_refreshes|exact I].
Qed.

(** X16 on the refreshing Tx task: five ticks. *)
Lemma run_loop_keeps_task_witness :
  exists l w' frames,
    run_loop callbacks 5 tx_world = (l, Return tt w') /\
    queued_alone callbacks 0%nat w' /\
    tasks w' = tasks tx_world /\
    writes w' = writes tx_world ++ frames /\
    (length frames <= 5)%nat /\
    Forall (fun frame => exists payload, frame = id (tasks tx_world 0%nat) ++ payload)
           frames.
Proof.
  apply (run_loop_keeps_task callbacks 0%nat 5 tx_world).
  apply queued_alone_demo; try (vm_compute; reflexivity).
  - eexists. vm_compute. reflexivity.
  - left. vm_compute. reflexivity.
Defined.

(** X17 with clock readings 0.6 and 1.2 after a timer started at 0: the
    task is sent at 0.6 and again at 1.2. *)
Lemma retransmission_after_old_timer_witness :
  exists l1 w1 l2 w2 payload1 payload2,
    run callbacks tx_loaded_world = (l1, Return tt w1) /\
    _start_time w1 = Some (0 # 10)%Q /\
    run callbacks w1 = (l2, Return tt w2) /\
    writes w2 = writes tx_loaded_world ++
      [id (tasks tx_loaded_world 0%nat) ++ payload1;
       id (tasks tx_loaded_world 0%nat) ++ payload2].
Proof.
  apply (retransmission_after_old_timer callbacks tx_loaded_world 0%nat (0 # 10)%Q);
    try (vm_compute; reflexivity).
  - apply queued_alone_demo; try (vm_compute; reflexivity).
    + eexists. vm_compute. reflexivity.
    + right. vm_compute. reflexivity.
  - vm_compute. discriminate.
Defined.

(** X18: task 7 is sent, acknowledged and scheduled again at 0.8, before
    the timer expires: the tick sends nothing. *)
Lemma rescheduled_task_waits_witness :
  let w := exec (_route_data callbacks 7 []) (exec (run callbacks) tx_world) in
  exists w1 w2,
    schedule 0%nat w = ([], Return tt w1) /\
    run callbacks w1 = ([], Return tt w2) /\
    writes w2 = writes w /\
    was_not_handled 0%nat w2 = true.
Proof.
  intros w.
  apply (rescheduled_task_waits callbacks w 0%nat (mkSerial [] [[7; 42]]));
    try (vm_compute; reflexivity).
  - eexists. vm_compute. reflexivity.
  - change (refreshes callbacks 1%nat). exact refresh_callback_refreshes.
Defined.

(** X19 on the Tx task without callback whose buffer holds 9: the first
    frame is 7,9 and its retransmission is 7 alone. *)
Lemma retransmission_of_cleared_buffer_witness :
  exists w1 w2,
    run callbacks tx_loaded_world = ([], Return tt w1) /\
    writes w1 = [[7; 9]] /\
    run callbacks w1 = ([], Return tt w2) /\
    writes w2 = [[7; 9]; [7]].
Proof.
  destruct (retransmission_of_cleared_buffer callbacks tx_loaded_world 0%nat (0 # 10)%Q)
    as (w1 & Hrun & Hw & _ & Hnext).
  - apply queued_alone_demo; try (vm_compute; reflexivity).
    + eexists. vm_compute. reflexivity.
    + right. vm_compute. reflexivity.
  - vm_compute. reflexivity.
  - vm_compute. reflexivity.
  - left. vm_compute. discriminate.
  - assert (Hw1 : w1 = exec (run callbacks) tx_loaded_world)
      by (unfold exec; now rewrite Hrun).
    destruct Hnext as (w2 & Hrun2 & Hw2).
    { rewrite Hw1. vm_compute. reflexivity. }
    exists w1, w2. split; [exact Hrun|].
    split; [rewrite Hw; vm_compute; reflexivity|].
    split; [exact Hrun2|].
    rewrite Hw2, Hw. vm_compute. reflexivity.
Defined.

(** X20 and X21 on a machine with two boards: the first one is opened;
    a search that matches no description leaves the scheduler without
    port. *)
Lemma init_search_outcome_witness :
  _get_port Arduino comports = comports !! 1%nat /\
  _get_port Teensy comports = None /\
  init_search comports serial_at Teensy (fresh 0 1)
    = ([], Raise AttributeError (fresh 0 1)).
Proof.
  split; [vm_compute; reflexivity|]. split; [vm_compute; reflexivity|].
  exact (init_search_outcome comports serial_at Teensy (fresh 0 1)).
Defined.
